(** * BullBearSpreadStrategy: a shallow embedding of the backtest engine

    The development follows the two source files:
    - [bull_spread_strategy.py]: class [BullPutSpreadStrategy] (indicators,
      0DTE filter, spread selection, valuation, the day loop of
      [run_backtest]);
    - [backtest_alpha_vantage.py]: [get_intraday_data], the price fetcher.

    Numbers.  The program computes on IEEE doubles held in pandas columns.
    Here a finite double is an exact rational ([Q], no rounding), and the
    three special values that pandas and numpy produce instead of raising
    (not-a-number, plus and minus infinity) are explicit constructors of
    [pyfloat], with the IEEE rules for arithmetic and comparison on them.
    Input columns (close, strike, bid, ask, delta) and parameters hold
    finite numbers; indicator columns and ratios are [pyfloat].

    Data frames are lists of rows in frame order; a boolean mask is a
    [bool]-valued function used with [List.filter]; [.iloc[0]] is the head
    of the list and raises [IndexError] on an empty frame. *)

From Stdlib Require Import ZArith QArith Qround Bool List Lia Lqa.
From stdpp Require Import base option strings pretty gmap.
Import ListNotations.

Set Default Proof Using "Type".

(** ** Python exceptions and results *)

Inductive exn : Type :=
| IndexError
| OverflowError
| ValueError
| ZeroDivisionError
| AttributeError
| Exception (msg : string).

Inductive outcome (A : Type) : Type :=
| Return (a : A)
| Raise (e : exn).
Arguments Return {A} a.
Arguments Raise {A} e.

Definition bind {A B : Type} (m : outcome A) (k : A -> outcome B) : outcome B :=
  match m with
  | Return a => k a
  | Raise e => Raise e
  end.

(** ** Doubles: finite rationals plus the IEEE special values *)

Module PyFloat.

Inductive pyfloat : Type :=
| NaN
| Inf (negative : bool)
| Fin (q : Q).

Definition Qlt_bool (x y : Q) : bool := negb (Qle_bool y x).

Definition is_finite (x : pyfloat) : bool :=
  match x with Fin _ => true | _ => false end.

Definition neg (x : pyfloat) : pyfloat :=
  match x with
  | NaN => NaN
  | Inf s => Inf (negb s)
  | Fin q => Fin (- q)
  end.

Definition add (x y : pyfloat) : pyfloat :=
  match x, y with
  | NaN, _ | _, NaN => NaN
  | Inf s, Inf t => if Bool.eqb s t then Inf s else NaN
  | Inf s, Fin _ | Fin _, Inf s => Inf s
  | Fin a, Fin b => Fin (a + b)
  end.

Definition sub (x y : pyfloat) : pyfloat := add x (neg y).

Definition mul (x y : pyfloat) : pyfloat :=
  match x, y with
  | NaN, _ | _, NaN => NaN
  | Inf s, Inf t => Inf (xorb s t)
  | Inf s, Fin q | Fin q, Inf s =>
      if Qeq_bool q 0 then NaN else Inf (xorb s (Qlt_bool q 0))
  | Fin a, Fin b => Fin (a * b)
  end.

(** numpy division: a zero divisor gives an infinity or NaN, never an
    exception. *)
Definition div (x y : pyfloat) : pyfloat :=
  match x, y with
  | NaN, _ | _, NaN => NaN
  | Inf _, Inf _ => NaN
  | Inf s, Fin q => Inf (xorb s (Qlt_bool q 0))
  | Fin _, Inf _ => Fin 0
  | Fin a, Fin b =>
      if Qeq_bool b 0
      then (if Qeq_bool a 0 then NaN else Inf (Qlt_bool a 0))
      else Fin (a / b)
  end.

(** Ordered comparisons: every comparison with NaN is false. *)
Definition ltb (x y : pyfloat) : bool :=
  match x, y with
  | NaN, _ | _, NaN => false
  | Inf s, Inf t => s && negb t
  | Inf s, Fin _ => s
  | Fin _, Inf t => negb t
  | Fin a, Fin b => Qlt_bool a b
  end.

Definition leb (x y : pyfloat) : bool :=
  match x, y with
  | NaN, _ | _, NaN => false
  | Inf s, Inf t => s || negb t
  | Inf s, Fin _ => s
  | Fin _, Inf t => negb t
  | Fin a, Fin b => Qle_bool a b
  end.

Definition gtb (x y : pyfloat) : bool := ltb y x.
Definition geb (x y : pyfloat) : bool := leb y x.

(** Python's [int(x)] on a rational: truncation toward zero. *)
Definition Qtrunc (q : Q) : Z :=
  if Qle_bool 0 q then Qfloor q else Qceiling q.

(** [int(x)]: [OverflowError] on an infinity, [ValueError] on NaN. *)
Definition int (x : pyfloat) : outcome Z :=
  match x with
  | NaN => Raise ValueError
  | Inf _ => Raise OverflowError
  | Fin q => Return (Qtrunc q)
  end.

Definition of_Z (z : Z) : pyfloat := Fin (inject_Z z).

End PyFloat.
Import PyFloat.

(** ** pandas series and rolling windows *)

Module Series.

(** [s.diff()]: first entry undefined, then the step from the previous
    entry. *)
Fixpoint diff_from (prev : pyfloat) (xs : list pyfloat) : list pyfloat :=
  match xs with
  | [] => []
  | x :: tl => sub x prev :: diff_from x tl
  end.

Definition diff (xs : list pyfloat) : list pyfloat :=
  match xs with
  | [] => []
  | x :: tl => NaN :: diff_from x tl
  end.

(** [s.where(cond, other)]: keep the entry where the mask holds. *)
Definition where_ (cond : pyfloat -> bool) (other : pyfloat)
    (xs : list pyfloat) : list pyfloat :=
  map (fun x => if cond x then x else other) xs.

Definition sum (xs : list pyfloat) : pyfloat :=
  fold_left add xs (Fin 0).

(** [np.mean] of a list of doubles (NaN on the empty list). *)
Definition mean (xs : list pyfloat) : pyfloat :=
  div (sum xs) (of_Z (Z.of_nat (length xs))).

(** The trailing window ending at index [i], when [window] entries are
    available. *)
Definition window_at (window i : nat) (xs : list pyfloat)
    : option (list pyfloat) :=
  if (window <=? i + 1)%nat
  then Some (firstn window (skipn (i + 1 - window) xs))
  else None.

(** [s.rolling(window).mean()] with the default [min_periods = window]:
    undefined until the window is full and whenever the window holds an
    undefined entry. *)
Definition rolling_mean (window : nat) (xs : list pyfloat) : list pyfloat :=
  map (fun i =>
         match window_at window i xs with
         | None => NaN
         | Some w => if forallb is_finite w then mean w else NaN
         end)
      (seq 0 (length xs)).

Definition map2 (f : pyfloat -> pyfloat -> pyfloat)
    (xs ys : list pyfloat) : list pyfloat :=
  map (fun p => f (fst p) (snd p)) (combine xs ys).

End Series.

(** ** Data model of [bull_spread_strategy.py] *)

(** A calendar date is its proleptic ordinal ([date.toordinal()]);
    [timedelta(days=1)] adds one. *)
Definition date := Z.

(** [date.weekday()]: Monday is 0, Sunday is 6. *)
Definition weekday (d : date) : Z := ((d + 6) mod 7)%Z.

(** A row of the price frame handed to the constructor. *)
Record PriceRow := { pr_date : date; pr_close : Q }.

(** A row of [qqq_data] after [add_indicators]. *)
Record Bar := {
  bar_date : date;
  close : Q;
  rsi : pyfloat;
  sma_20 : pyfloat;
  sma_50 : pyfloat
}.

(** A row of [options_data]. *)
Record OptionRow := {
  opt_date : date;
  expiration_date : date;
  option_type : string;
  strike : Q;
  bid : Q;
  ask : Q;
  delta : Q
}.

(** The [params] dict. *)
Record Params := {
  entry_rsi_threshold : Q;
  profit_target_pct : Q;
  stop_loss_pct : Q;
  width_between_strikes : Q;
  max_position_size : Q
}.

(** The dict returned by [find_bull_put_spread]. *)
Module Trade.
Record t := {
  short_put : OptionRow;
  long_put : OptionRow;
  num_spreads : Z;
  max_risk : Q;
  max_profit : Q
}.
End Trade.

(** The position dict built in [run_backtest]. *)
Module Position.
Record t := {
  entry_date : date;
  expiry_date : date;
  short_put : OptionRow;
  long_put : OptionRow;
  num_spreads : Z;
  initial_credit : Q;
  max_risk : Q
}.
End Position.

(** An entry of [trade_history]. *)
Module TradeRecord.
Record t := {
  entry_date : date;
  exit_date : date;
  profit_loss : Q;
  profit_pct : pyfloat
}.
End TradeRecord.

(** An entry of the [results] list. *)
Module Event.
Record t := {
  date_ : date;
  account_value : Q;
  action : string;
  trade_details : Position.t
}.
End Event.

Record Performance := {
  total_return : pyfloat;
  win_rate : pyfloat;
  average_return : pyfloat;
  total_trades : nat
}.

Record BacktestResult := {
  res_results : list Event.t;
  res_trade_history : list TradeRecord.t;
  res_performance : Performance;
  final_account : Q
}.

(** Structural equality of rows and positions, as [list.remove] needs it. *)
Definition OptionRow_eqb (a b : OptionRow) : bool :=
  Z.eqb (opt_date a) (opt_date b)
  && Z.eqb (expiration_date a) (expiration_date b)
  && String.eqb (option_type a) (option_type b)
  && Qeq_bool (strike a) (strike b)
  && Qeq_bool (bid a) (bid b)
  && Qeq_bool (ask a) (ask b)
  && Qeq_bool (delta a) (delta b).

Definition Position_eqb (a b : Position.t) : bool :=
  Z.eqb (Position.entry_date a) (Position.entry_date b)
  && Z.eqb (Position.expiry_date a) (Position.expiry_date b)
  && OptionRow_eqb (Position.short_put a) (Position.short_put b)
  && OptionRow_eqb (Position.long_put a) (Position.long_put b)
  && Z.eqb (Position.num_spreads a) (Position.num_spreads b)
  && Qeq_bool (Position.initial_credit a) (Position.initial_credit b)
  && Qeq_bool (Position.max_risk a) (Position.max_risk b).

(** [l.remove(x)]: drop the first entry equal to [x]. *)
Fixpoint list_remove (x : Position.t) (l : list Position.t) : list Position.t :=
  match l with
  | [] => []
  | y :: tl => if Position_eqb y x then tl else y :: list_remove x tl
  end.

Definition is_empty {A : Type} (l : list A) : bool :=
  match l with [] => true | _ => false end.


(** ** class [BullPutSpreadStrategy] *)

Module BullPutSpreadStrategy.

Open Scope Q_scope.

(** The attributes of [self]. *)
Record t := {
  qqq_data : list Bar;
  options_data : list OptionRow;
  params : Params;
  positions : list Position.t;
  trade_history : list TradeRecord.t
}.

Definition set_positions (self : t) (ps : list Position.t) : t :=
  {| qqq_data := qqq_data self; options_data := options_data self;
     params := params self; positions := ps;
     trade_history := trade_history self |}.

Definition set_trade_history (self : t) (h : list TradeRecord.t) : t :=
  {| qqq_data := qqq_data self; options_data := options_data self;
     params := params self; positions := positions self;
     trade_history := h |}.

(** Attach the three indicator columns to the price rows. *)
Fixpoint annotate (prices : list PriceRow) (rsi_col sma20_col sma50_col : list pyfloat)
    : list Bar :=
  match prices with
  | [] => []
  | r :: tl =>
      {| bar_date := pr_date r; close := pr_close r;
         rsi := hd NaN rsi_col; sma_20 := hd NaN sma20_col;
         sma_50 := hd NaN sma50_col |}
      :: annotate tl (List.tl rsi_col) (List.tl sma20_col) (List.tl sma50_col)
  end.

Definition add_indicators (prices : list PriceRow) : list Bar :=
  let closes := map (fun r => Fin (pr_close r)) prices in
  let delta := Series.diff closes in
  let gain := Series.where_ (fun d => gtb d (Fin 0)) (Fin 0) delta in
  let loss := map neg (Series.where_ (fun d => ltb d (Fin 0)) (Fin 0) delta) in
  let avg_gain := Series.rolling_mean 14 gain in
  let avg_loss := Series.rolling_mean 14 loss in
  let rs := Series.map2 div avg_gain avg_loss in
  let rsi_col := map (fun r => sub (Fin 100) (div (Fin 100) (add (Fin 1) r))) rs in
  let sma20_col := Series.rolling_mean 20 closes in
  let sma50_col := Series.rolling_mean 50 closes in
  annotate prices rsi_col sma20_col sma50_col.

Definition __init__ (prices : list PriceRow) (options : list OptionRow)
    (p : Params) : t :=
  {| qqq_data := add_indicators prices; options_data := options; params := p;
     positions := []; trade_history := [] |}.

Definition filter_0dte_options (self : t) (d : date) : list OptionRow :=
  let today_options := List.filter (fun o => Z.eqb (opt_date o) d) (options_data self) in
  let expiry_today := List.filter (fun o => Z.eqb (expiration_date o) d) today_options in
  expiry_today.

Definition find_bull_put_spread (self : t) (d : date) (account_value : Q)
    : outcome (option Trade.t) :=
  match List.filter (fun b => Z.eqb (bar_date b) d) (qqq_data self) with
  | [] => Raise IndexError
  | current_data :: _ =>
    let current_rsi := rsi current_data in
    if ltb current_rsi (Fin (entry_rsi_threshold (params self)))
       || ltb (sma_20 current_data) (sma_50 current_data)
    then Return None
    else
      let todays_options := filter_0dte_options self d in
      if is_empty todays_options then Return None
      else
        let puts := List.filter (fun o => String.eqb (option_type o) "put") todays_options in
        let short_put_candidates :=
          List.filter (fun o => Qle_bool (-0.35) (delta o) && Qle_bool (delta o) (-0.25)) puts in
        match short_put_candidates with
        | [] => Return None
        | short_put :: _ =>
          let short_strike := strike short_put in
          let width := width_between_strikes (params self) in
          let long_strike := short_strike - width in
          let long_put_candidates :=
            List.filter (fun o => Qeq_bool (strike o) long_strike) puts in
          match long_put_candidates with
          | [] => Return None
          | long_put :: _ =>
            let max_risk :=
              (short_strike - long_strike) * 100 - (bid short_put - ask long_put) * 100 in
            let max_position := account_value * max_position_size (params self) in
            bind (int (div (Fin max_position) (Fin max_risk))) (fun num_spreads =>
              if Z.eqb num_spreads 0 then Return None
              else Return (Some
                {| Trade.short_put := short_put;
                   Trade.long_put := long_put;
                   Trade.num_spreads := num_spreads;
                   Trade.max_risk := max_risk;
                   Trade.max_profit :=
                     (bid short_put - ask long_put) * 100 * inject_Z num_spreads |}))
          end
        end
  end.

Definition calculate_current_value (position : Position.t)
    (current_options_data : list OptionRow) : option Q :=
  let short_put_current :=
    List.filter (fun o => Qeq_bool (strike o) (strike (Position.short_put position))
                          && String.eqb (option_type o) "put") current_options_data in
  let long_put_current :=
    List.filter (fun o => Qeq_bool (strike o) (strike (Position.long_put position))
                          && String.eqb (option_type o) "put") current_options_data in
  match short_put_current, long_put_current with
  | s :: _, l :: _ =>
      let short_put_value := ask s in
      let long_put_value := bid l in
      Some (Position.initial_credit position
            - (short_put_value - long_put_value) * 100
              * inject_Z (Position.num_spreads position))
  | _, _ => None
  end.

(** The local variables of [run_backtest] together with [self]. *)
Record Locals := {
  self : t;
  account_value : Q;
  current_date : date;
  results : list Event.t
}.

Definition next_day (st : Locals) : Locals :=
  {| self := self st; account_value := account_value st;
     current_date := (current_date st + 1)%Z; results := results st |}.

(** The exit test of the management loop. *)
Definition exit_condition (self : t) (position : Position.t)
    (current_date : date) (profit_pct : pyfloat) : bool :=
  geb profit_pct (Fin (profit_target_pct (params self)))
  || leb profit_pct (Fin (- stop_loss_pct (params self)))
  || Z.eqb current_date (Position.expiry_date position).

(** [for position in self.positions: ...].  Python's list iterator keeps
    an index into the live list: after the body removes an entry the
    index still advances, so the entry that slid into the freed slot is
    not visited.  [fuel] bounds the number of iterations. *)
Fixpoint manage_positions (fuel i : nat) (self : t) (account_value : Q)
    (current_date : date) : t * Q :=
  match fuel with
  | O => (self, account_value)
  | S fuel' =>
    match nth_error (positions self) i with
    | None => (self, account_value)
    | Some position =>
      let current_options := filter_0dte_options self current_date in
      if is_empty current_options
      then manage_positions fuel' (S i) self account_value current_date
      else
        match calculate_current_value position current_options with
        | None => manage_positions fuel' (S i) self account_value current_date
        | Some current_value =>
          let profit_pct := div (Fin current_value) (Fin (Position.max_risk position)) in
          if exit_condition self position current_date profit_pct
          then
            let record :=
              {| TradeRecord.entry_date := Position.entry_date position;
                 TradeRecord.exit_date := current_date;
                 TradeRecord.profit_loss := current_value;
                 TradeRecord.profit_pct := profit_pct |} in
            let self1 := set_trade_history self (trade_history self ++ [record]) in
            let self2 := set_positions self1 (list_remove position (positions self1)) in
            manage_positions fuel' (S i) self2 (account_value + current_value) current_date
          else manage_positions fuel' (S i) self account_value current_date
        end
    end
  end.

(** The "look for new trades" block. *)
Definition look_for_new_trades (st : Locals) : outcome Locals :=
  if is_empty (positions (self st))
  then
    bind (find_bull_put_spread (self st) (current_date st) (account_value st))
      (fun trade =>
         match trade with
         | None => Return st
         | Some trade =>
           let initial_credit :=
             (bid (Trade.short_put trade) - ask (Trade.long_put trade)) * 100
             * inject_Z (Trade.num_spreads trade) in
           let position :=
             {| Position.entry_date := current_date st;
                Position.expiry_date := current_date st;
                Position.short_put := Trade.short_put trade;
                Position.long_put := Trade.long_put trade;
                Position.num_spreads := Trade.num_spreads trade;
                Position.initial_credit := initial_credit;
                Position.max_risk := Trade.max_risk trade |} in
           Return
             {| self := set_positions (self st) (positions (self st) ++ [position]);
                account_value := account_value st;
                current_date := current_date st;
                results := results st ++
                  [ {| Event.date_ := current_date st;
                      Event.account_value := account_value st;
                      Event.action := "ENTRY";
                      Event.trade_details := position |} ] |}
         end)
  else Return st.

(** One pass through the body of the [while] loop. *)
Definition loop_body (st : Locals) : outcome Locals :=
  if (5 <=? weekday (current_date st))%Z then Return (next_day st)
  else
    let day_data := List.filter (fun b => Z.eqb (bar_date b) (current_date st))
                                (qqq_data (self st)) in
    if is_empty day_data then Return (next_day st)
    else
      let '(self1, account1) :=
        manage_positions (length (positions (self st))) 0 (self st)
                         (account_value st) (current_date st) in
      let st1 := {| self := self1; account_value := account1;
                    current_date := current_date st; results := results st |} in
      bind (look_for_new_trades st1) (fun st2 => Return (next_day st2)).

(** [while current_date <= end_date: ...] *)
Fixpoint while_loop (fuel : nat) (end_date : date) (st : Locals) : outcome Locals :=
  match fuel with
  | O => Return st
  | S fuel' =>
    if (current_date st <=? end_date)%Z
    then bind (loop_body st) (while_loop fuel' end_date)
    else Return st
  end.

Definition performance_metrics (history : list TradeRecord.t)
    (account_value initial_capital : Q) (account_is_numpy : bool)
    : outcome Performance :=
  if is_empty history
  then Return {| total_return := Fin 0; win_rate := Fin 0;
                 average_return := Fin 0; total_trades := 0 |}
  else
    let win_trades :=
      length (List.filter (fun tr => Qlt_bool 0 (TradeRecord.profit_loss tr)) history) in
    let total_trades := length history in
    let win_rate_ := div (of_Z (Z.of_nat win_trades)) (of_Z (Z.of_nat total_trades)) in
    let avg_return := Series.mean (map TradeRecord.profit_pct history) in
    if Qeq_bool initial_capital 0 && negb account_is_numpy
    then Raise ZeroDivisionError
    else
      Return {| total_return :=
                  mul (sub (div (Fin account_value) (Fin initial_capital)) (Fin 1)) (Fin 100);
                win_rate := mul win_rate_ (Fin 100);
                average_return := mul avg_return (Fin 100);
                total_trades := total_trades |}.

(** [run_backtest]: the result dict together with [self] as the call
    leaves it.  The account is a numpy double exactly when a close in
    this call added one to it. *)
Definition run_backtest (self0 : t) (start_date end_date : date)
    (initial_capital : Q) : outcome (BacktestResult * t) :=
  let st0 := {| self := self0; account_value := initial_capital;
                current_date := start_date; results := [] |} in
  bind (while_loop (Z.to_nat (end_date - start_date + 1)) end_date st0) (fun st =>
    let closed_here :=
      (length (trade_history self0) <? length (trade_history (self st)))%nat in
    bind (performance_metrics (trade_history (self st)) (account_value st)
                              initial_capital closed_here) (fun performance =>
      Return ({| res_results := results st;
                 res_trade_history := trade_history (self st);
                 res_performance := performance;
                 final_account := account_value st |}, self st))).

End BullPutSpreadStrategy.


(** ** [backtest_alpha_vantage.py]: the price fetcher *)

Module backtest_alpha_vantage.

(** A decoded JSON value, as far as the fetcher looks into it. *)
#[warnings="-register-all"] Inductive json : Type :=
| JStr (s : string)
| JObj (fields : list (string * json)).

(** What [requests.get] hands back: the status code and the outcome of
    [response.json()], a dict keyed by strings. *)
Record Response := {
  status_code : Z;
  json_ : outcome (gmap string json)
}.

(** The query parameters of the request. *)
Definition query (symbol interval api_key output_size : string)
    : list (string * string) :=
  [("function", "TIME_SERIES_INTRADAY"); ("symbol", symbol);
   ("interval", interval); ("apikey", api_key);
   ("outputsize", output_size); ("datatype", "json")].

Definition time_series_key (interval : string) : string :=
  "Time Series (" +:+ interval +:+ ")".

Section Fetch.

(** The remote service, the frame type, the pandas conversion of lines
    53 to 76 (which may raise on a malformed series) and Python's [str]
    on a decoded value are taken as given. *)
Variable requests_get : string -> list (string * string) -> outcome Response.
Variable DataFrame : Type.
Variable frame_of_time_series : string -> json -> outcome DataFrame.
Variable str : json -> string.

Definition get_intraday_data (symbol interval : string)
    (api_key : option string) (output_size : string) : outcome DataFrame :=
  match api_key with
  | None => Raise ValueError
  | Some key =>
    let base_url := "https://www.alphavantage.co/query" in
    bind (requests_get base_url (query symbol interval key output_size)) (fun response =>
      if negb (Z.eqb (status_code response) 200)
      then Raise (Exception ("API request failed with status code "
                             +:+ pretty.pretty (status_code response)))
      else
        bind (json_ response) (fun data =>
          match data !! "Error Message" with
          | Some msg => Raise (Exception ("API returned an error: " +:+ str msg))
          | None =>
            match data !! time_series_key interval with
            | None => Raise (Exception ("Expected key '" +:+ time_series_key interval
                                        +:+ "' not found in response"))
            | Some time_series => frame_of_time_series symbol time_series
            end
          end))
  end.

End Fetch.

(** Python's [range(lo, hi)]. *)
Definition range (lo hi : Z) : list Z :=
  map (fun i => (lo + Z.of_nat i)%Z) (seq 0 (Z.to_nat (hi - lo))).

Definition slice_param (year month : Z) : string :=
  "year" +:+ pretty.pretty year +:+ "month" +:+ pretty.pretty month.

(** The query parameters of a slice request. *)
Definition slice_query (symbol interval : string) (slice : string)
    (api_key : option string) : list (string * string) :=
  [("function", "TIME_SERIES_INTRADAY_EXTENDED"); ("symbol", symbol);
   ("interval", interval); ("slice", slice);
   ("apikey", default "None" api_key)].

Section FetchMonths.

(** Besides what [get_intraday_data] needs: the body text of a reply,
    the CSV read of line 127, and the concatenation, de-duplication and
    sort of the collected frames (each of which may raise).
    [read_csv body] stands for the whole expression
    [pd.read_csv(pd.StringIO(response.text))]; where pandas has no
    attribute [StringIO] it raises [AttributeError] whatever the body. *)
Variable requests_get : string -> list (string * string) -> outcome Response.
Variable DataFrame : Type.
Variable frame_of_time_series : string -> json -> outcome DataFrame.
Variable str : json -> string.
Variable text : Response -> string.
Variable read_csv : string -> outcome DataFrame.
Variable combine : list DataFrame -> outcome DataFrame.

(** [for month in range(1, 13): ...] for one [year], with its [break]. *)
Fixpoint month_loop (symbol interval : string) (api_key : option string)
    (months year : Z) (month_range : list Z) (all_data : list DataFrame)
    : outcome (list DataFrame) :=
  match month_range with
  | [] => Return all_data
  | month :: rest =>
    if (months <? (year - 1) * 12 + month)%Z then Return all_data
    else
      bind (requests_get "https://www.alphavantage.co/query"
              (slice_query symbol interval (slice_param year month) api_key))
        (fun response =>
           if Z.eqb (status_code response) 200
           then bind (read_csv (text response)) (fun data =>
                  month_loop symbol interval api_key months year rest
                             (all_data ++ [data]))
           else month_loop symbol interval api_key months year rest all_data)
  end.

(** [for year in range(1, (months // 12) + 1): ...] *)
Fixpoint year_loop (symbol interval : string) (api_key : option string)
    (months : Z) (year_range : list Z) (all_data : list DataFrame)
    : outcome (list DataFrame) :=
  match year_range with
  | [] => Return all_data
  | year :: rest =>
    bind (month_loop symbol interval api_key months year (range 1 13) all_data)
         (year_loop symbol interval api_key months rest)
  end.

Definition fetch_multiple_months (symbol interval : string)
    (api_key : option string) (months : Z) : outcome DataFrame :=
  bind (get_intraday_data requests_get DataFrame frame_of_time_series str
          symbol interval api_key "full") (fun first_batch =>
    let all_data := [first_batch] in
    bind (if (1 <? months)%Z && String.eqb interval "1min"
          then year_loop symbol interval api_key months
                         (range 1 (months / 12 + 1)) all_data
          else Return all_data) (fun all_data =>
      if (1 <? length all_data)%nat
      then combine all_data
      else match all_data with
           | first :: _ => Return first
           | [] => Raise IndexError
           end)).

End FetchMonths.

End backtest_alpha_vantage.


(** ** Concrete market data used by the examples *)

Module Scenario.

Open Scope Q_scope.

(** The parameters of the example at the end of the source file. *)
Definition strategy_params : Params :=
  {| entry_rsi_threshold := 40;
     profit_target_pct := 0.50;
     stop_loss_pct := 1.5;
     width_between_strikes := 5;
     max_position_size := 0.05 |}.

(** Monday 2023-01-02. *)
Definition monday : date := 738522%Z.

(** The [i]-th trading day counted from [monday], weekends left out. *)
Definition trading_day (i : nat) : date :=
  (monday + 7 * Z.of_nat (i / 5) + Z.of_nat (i mod 5))%Z.

(** A rising zigzag: up 2, down 1, from 300. *)
Definition zigzag_close (i : nat) : Q :=
  300 + inject_Z (Z.of_nat (i / 2)) + (if Nat.odd i then 2 else 0).

Definition zigzag_prices (n : nat) : list PriceRow :=
  map (fun i => {| pr_date := trading_day i; pr_close := zigzag_close i |}) (seq 0 n).

(** A flat series: every close is 300. *)
Definition flat_prices (n : nat) : list PriceRow :=
  map (fun i => {| pr_date := trading_day i; pr_close := 300 |}) (seq 0 n).

Definition put_quote (d : date) (k b a dl : Q) : OptionRow :=
  {| opt_date := d; expiration_date := d; option_type := "put";
     strike := k; bid := b; ask := a; delta := dl |}.

(** The 0DTE put chain of day [d]: a 30-delta put at 300 bid 1.20 and
    the put 5 below it asked 0.40. *)
Definition chain (d : date) : list OptionRow :=
  [ put_quote d 300 1.20 1.30 (-0.30); put_quote d 295 0.30 0.40 (-0.10) ].

(** Sixty bars; options quoted on the last two trading days. *)
Definition entry_day : date := trading_day 58.
Definition day_after : date := trading_day 59.

Definition strategy : BullPutSpreadStrategy.t :=
  BullPutSpreadStrategy.__init__ (zigzag_prices 60)
    (chain entry_day ++ chain day_after) strategy_params.

(** The same chain over a flat price series: no gain and no loss in any
    window, both moving averages equal. *)
Definition flat_strategy : BullPutSpreadStrategy.t :=
  BullPutSpreadStrategy.__init__ (flat_prices 60) (chain entry_day) strategy_params.

(** A single price bar: no indicator window is full. *)
Definition one_bar_strategy : BullPutSpreadStrategy.t :=
  BullPutSpreadStrategy.__init__ (zigzag_prices 1) (chain monday) strategy_params.

(** A chain whose short put is bid above the strike width. *)
Definition rich_chain (d : date) : list OptionRow :=
  [ put_quote d 300 7.00 7.10 (-0.30); put_quote d 295 0.30 0.50 (-0.10) ].

Definition rich_strategy : BullPutSpreadStrategy.t :=
  BullPutSpreadStrategy.__init__ (zigzag_prices 60) (rich_chain entry_day) strategy_params.

(** An open position whose long leg is not quoted on [day_after]. *)
Definition short_only_chain (d : date) : list OptionRow :=
  [ put_quote d 300 1.20 1.30 (-0.30) ].

Definition held_position : Position.t :=
  {| Position.entry_date := entry_day; Position.expiry_date := entry_day;
     Position.short_put := put_quote entry_day 300 1.20 1.30 (-0.30);
     Position.long_put := put_quote entry_day 295 0.30 0.40 (-0.10);
     Position.num_spreads := 11; Position.initial_credit := 880;
     Position.max_risk := 420 |}.

Definition holding_strategy : BullPutSpreadStrategy.t :=
  BullPutSpreadStrategy.set_positions
    (BullPutSpreadStrategy.__init__ (zigzag_prices 60)
       (short_only_chain day_after) strategy_params)
    [held_position].

(** The day after the entry the spread can be bought back for 0.20:
    the position is worth 660, above the profit target. *)
Definition cheap_chain (d : date) : list OptionRow :=
  [ put_quote d 300 0.40 0.50 (-0.12); put_quote d 295 0.30 0.35 (-0.05) ].

Definition winning_strategy : BullPutSpreadStrategy.t :=
  BullPutSpreadStrategy.__init__ (zigzag_prices 60)
    (chain entry_day ++ cheap_chain day_after) strategy_params.

(** A canned remote service for the fetcher: one reply for every
    request. *)
Definition frame : Type := list (string * string).

Definition canned (r : backtest_alpha_vantage.Response)
    : string -> list (string * string) -> outcome backtest_alpha_vantage.Response :=
  fun _ _ => Return r.

Definition rows_of (symbol : string) (j : backtest_alpha_vantage.json) : outcome frame :=
  match j with
  | backtest_alpha_vantage.JObj fields => Return (map (fun kv => (fst kv, symbol)) fields)
  | backtest_alpha_vantage.JStr _ => Raise ValueError
  end.

Definition show (j : backtest_alpha_vantage.json) : string :=
  match j with
  | backtest_alpha_vantage.JStr s => s
  | backtest_alpha_vantage.JObj _ => "{...}"
  end.

Definition rate_limited : backtest_alpha_vantage.Response :=
  {| backtest_alpha_vantage.status_code := 429;
     backtest_alpha_vantage.json_ := Return ∅ |}.

(** The zigzag prices with no options data at all. *)
Definition quiet_strategy : BullPutSpreadStrategy.t :=
  BullPutSpreadStrategy.__init__ (zigzag_prices 60) [] strategy_params.

(** A price series that rises by 1 every bar. *)
Definition rising_prices (n : nat) : list PriceRow :=
  map (fun i => {| pr_date := trading_day i;
                   pr_close := 300 + inject_Z (Z.of_nat i) |}) (seq 0 n).

(** A reply with a one-bar minute series, and stand-ins for the body
    text, the CSV reader and the concatenation of frames. *)
Definition ok_reply : backtest_alpha_vantage.Response :=
  {| backtest_alpha_vantage.status_code := 200;
     backtest_alpha_vantage.json_ :=
       Return {[ "Time Series (1min)" :=
                   backtest_alpha_vantage.JObj
                     [("2023-01-02 09:30:00",
                       backtest_alpha_vantage.JObj
                         [("4. close", backtest_alpha_vantage.JStr "300.0")])] ]} |}.

Definition body_text (r : backtest_alpha_vantage.Response) : string := "".

Definition parse_csv (body : string) : outcome frame := Return [].

Definition concat_frames (frames : list frame) : outcome frame :=
  Return (List.concat frames).

(** The CSV read of line 127 as it goes where pandas has no attribute
    [StringIO]: the argument raises before anything is read. *)
Definition no_string_io (body : string) : outcome frame := Raise AttributeError.

(** A remote that answers the intraday request and refuses the slices
    of the extended history. *)
Definition free_tier (url : string) (params : list (string * string))
    : outcome backtest_alpha_vantage.Response :=
  match params with
  | (_, "TIME_SERIES_INTRADAY") :: _ => Return ok_reply
  | _ => Return rate_limited
  end.

End Scenario.

(** ** Vocabulary of the statements *)

(** A property of the value a computation returns (nothing is said when
    it raises). *)
Definition on_return {A : Type} (P : A -> Prop) (m : outcome A) : Prop :=
  match m with
  | Return a => P a
  | Raise _ => True
  end.

(** The snapshot quotes a put at strike [k]. *)
Definition quotes_put (snapshot : list OptionRow) (k : Q) : Prop :=
  exists o, In o snapshot /\ (strike o == k)%Q /\ option_type o = "put".

(** The date has a price bar in [qqq_data]. *)
Definition has_bar (self : BullPutSpreadStrategy.t) (d : date) : Prop :=
  exists b, In b (BullPutSpreadStrategy.qqq_data self) /\ bar_date b = d.

(** The locals of [run_backtest] on entry to the loop. *)
Definition initial_locals (self0 : BullPutSpreadStrategy.t) (start_date : date)
    (initial_capital : Q) : BullPutSpreadStrategy.Locals :=
  {| BullPutSpreadStrategy.self := self0;
     BullPutSpreadStrategy.account_value := initial_capital;
     BullPutSpreadStrategy.current_date := start_date;
     BullPutSpreadStrategy.results := [] |}.

(** The account after realising the given trade records in order. *)
Definition realise (account : Q) (closed : list TradeRecord.t) : Q :=
  fold_left (fun a r => (a + TradeRecord.profit_loss r)%Q) closed account.

(** The trade records appended between two states of [self]. *)
Definition appended (before after : BullPutSpreadStrategy.t) : list TradeRecord.t :=
  skipn (length (BullPutSpreadStrategy.trade_history before))
        (BullPutSpreadStrategy.trade_history after).

(** What a trade record of a close on day [d] says about the position it
    came from: the exit date, the entry date, and the value computed by
    [calculate_current_value] on the day's 0DTE snapshot. *)
Definition closes_at (self : BullPutSpreadStrategy.t) (d : date)
    (r : TradeRecord.t) : Prop :=
  TradeRecord.exit_date r = d /\
  exists p, In p (BullPutSpreadStrategy.positions self) /\
    TradeRecord.entry_date r = Position.entry_date p /\
    BullPutSpreadStrategy.calculate_current_value p
      (BullPutSpreadStrategy.filter_0dte_options self d)
      = Some (TradeRecord.profit_loss r).

(** ** Vocabulary of the further properties *)

(** The record [r] is the close, on day [d], of a position of [self]
    that met the exit test of the management loop. *)
Definition closed_by_rule (self : BullPutSpreadStrategy.t) (d : date)
    (r : TradeRecord.t) : Prop :=
  exists p, In p (BullPutSpreadStrategy.positions self) /\
    TradeRecord.entry_date r = Position.entry_date p /\
    TradeRecord.exit_date r = d /\
    BullPutSpreadStrategy.calculate_current_value p
      (BullPutSpreadStrategy.filter_0dte_options self d)
      = Some (TradeRecord.profit_loss r) /\
    TradeRecord.profit_pct r
      = div (Fin (TradeRecord.profit_loss r)) (Fin (Position.max_risk p)) /\
    BullPutSpreadStrategy.exit_condition self p d (TradeRecord.profit_pct r) = true.

(** The profit target or the stop loss of the parameters is met. *)
Definition target_or_stop (p : Params) (pct : pyfloat) : bool :=
  geb pct (Fin (profit_target_pct p)) || leb pct (Fin (- stop_loss_pct p)).

(** A day on which the loop can act: a weekday with a price bar. *)
Definition trading_date (self : BullPutSpreadStrategy.t) (d : date) : Prop :=
  (weekday d < 5)%Z /\ has_bar self d.

(** The put is in the delta band of the short leg. *)
Definition in_delta_band (o : OptionRow) : Prop :=
  option_type o = "put" /\ (-0.35 <= delta o)%Q /\ (delta o <= -0.25)%Q.

(** A double is a number that is not negative; is undefined or such a
    number; is undefined or a number. *)
Definition finite_nonneg (x : pyfloat) : Prop :=
  match x with Fin q => (0 <= q)%Q | _ => False end.

Definition finite_pos (x : pyfloat) : Prop :=
  match x with Fin q => (0 < q)%Q | _ => False end.

Definition finite_zero (x : pyfloat) : Prop :=
  match x with Fin q => (q == 0)%Q | _ => False end.

Definition nan_or_nonneg (x : pyfloat) : Prop :=
  match x with NaN => True | Inf _ => False | Fin q => (0 <= q)%Q end.

Definition nan_or_finite (x : pyfloat) : Prop :=
  match x with Inf _ => False | _ => True end.

(** The closes of the price rows rise strictly from bar to bar. *)
Definition strictly_rising (prices : list PriceRow) : Prop :=
  forall i r r', nth_error prices i = Some r ->
                 nth_error prices (S i) = Some r' ->
                 (pr_close r < pr_close r')%Q.

(** An indicator value is undefined or lies between 0 and 100. *)
Definition nan_or_percent (x : pyfloat) : Prop :=
  match x with
  | NaN => True
  | Inf _ => False
  | Fin q => (0 <= q)%Q /\ (q <= 100)%Q
  end.

(** What one pass of the day loop does to the locals: the records it
    appends, the positions it keeps and opens, the events it logs. *)
Definition pass_effect (st st' : BullPutSpreadStrategy.Locals) : Prop :=
  let self := BullPutSpreadStrategy.self in
  let positions := BullPutSpreadStrategy.positions in
  let today := BullPutSpreadStrategy.current_date st in
  BullPutSpreadStrategy.current_date st' = (today + 1)%Z /\
  BullPutSpreadStrategy.qqq_data (self st')
    = BullPutSpreadStrategy.qqq_data (self st) /\
  BullPutSpreadStrategy.options_data (self st')
    = BullPutSpreadStrategy.options_data (self st) /\
  BullPutSpreadStrategy.params (self st')
    = BullPutSpreadStrategy.params (self st) /\
  exists closed opened events,
    BullPutSpreadStrategy.trade_history (self st')
      = BullPutSpreadStrategy.trade_history (self st) ++ closed /\
    BullPutSpreadStrategy.results st'
      = BullPutSpreadStrategy.results st ++ events /\
    Forall (closed_by_rule (self st) today) closed /\
    (exists kept,
        positions (self st') = kept ++ opened /\
        (forall p, In p kept -> In p (positions (self st))) /\
        (length kept + length closed)%nat = length (positions (self st))) /\
    length events = length opened /\
    Forall (fun p => Position.entry_date p = today /\
                     Position.expiry_date p = today) opened /\
    Forall (fun ev => Event.date_ ev = today /\
                      Event.action ev = "ENTRY" /\
                      In (Event.trade_details ev) opened) events /\
    (closed <> [] \/ events <> [] -> trading_date (self st) today).

(** * Properties of the backtest driver *)

Section Driver.

Import BullPutSpreadStrategy.

Implicit Types (self : BullPutSpreadStrategy.t) (st : Locals) (d : date).

(** *** Removing from the active list *)

Lemma Qeq_bool_refl (q : Q) : Qeq_bool q q = true.
Proof. apply Qeq_bool_iff. reflexivity. Qed.

Lemma OptionRow_eqb_refl (o : OptionRow) : OptionRow_eqb o o = true.
Proof.
  unfold OptionRow_eqb.
  rewrite !Z.eqb_refl, String.eqb_refl, !Qeq_bool_refl. reflexivity.
Qed.

Lemma Position_eqb_refl (p : Position.t) : Position_eqb p p = true.
Proof.
  unfold Position_eqb.
  rewrite !Z.eqb_refl, !OptionRow_eqb_refl, !Qeq_bool_refl. reflexivity.
Qed.

Lemma list_remove_length (x : Position.t) (l : list Position.t) :
  (length (list_remove x l) <= length l)%nat.
Proof.
  induction l as [|y tl IH]; simpl; [lia|].
  destruct (Position_eqb y x); simpl; lia.
Qed.

Lemma list_remove_In (x p : Position.t) (l : list Position.t) :
  In p (list_remove x l) -> In p l.
Proof.
  induction l as [|y tl IH]; simpl; [tauto|].
  destruct (Position_eqb y x); simpl; intuition.
Qed.

Lemma list_remove_singleton (p : Position.t) : list_remove p [p] = [].
Proof. simpl. now rewrite Position_eqb_refl. Qed.

(** *** The management loop *)

(** The setters leave the data frames and parameters alone, so the 0DTE
    snapshot of a day is the same before and after a close. *)
Lemma filter_0dte_options_frame self self' d :
  options_data self' = options_data self ->
  filter_0dte_options self' d = filter_0dte_options self d.
Proof. intros H. unfold filter_0dte_options. now rewrite H. Qed.

Lemma realise_app (a : Q) (xs ys : list TradeRecord.t) :
  realise a (xs ++ ys) = realise (realise a xs) ys.
Proof. unfold realise. apply fold_left_app. Qed.

Lemma manage_positions_spec (fuel : nat) :
  forall (i : nat) self (av : Q) d self' (av' : Q),
    manage_positions fuel i self av d = (self', av') ->
    qqq_data self' = qqq_data self /\
    options_data self' = options_data self /\
    params self' = params self /\
    (length (positions self') <= length (positions self))%nat /\
    (forall p, In p (positions self') -> In p (positions self)) /\
    exists closed,
      trade_history self' = trade_history self ++ closed /\
      av' = realise av closed /\
      Forall (closes_at self d) closed /\
      (closed = [] -> self' = self).
Proof.
  induction fuel as [|fuel IH]; intros i self av d self' av' H; simpl in H.
  - inversion H; subst. repeat split; auto. exists []. rewrite app_nil_r. auto.
  - destruct (nth_error (positions self) i) as [position|] eqn:Hnth.
    2:{ inversion H; subst. repeat split; auto. exists []. rewrite app_nil_r. auto. }
    destruct (is_empty (filter_0dte_options self d)) eqn:He; [now apply IH in H|].
    destruct (calculate_current_value position (filter_0dte_options self d))
      as [cv|] eqn:Hcv; [|now apply IH in H].
    destruct (exit_condition self position d _) eqn:Hex; [|now apply IH in H].
    apply IH in H. simpl in H.
    destruct H as (Hq & Ho & Hp & Hlen & Hin & closed & Hth & Hav & Hall & _).
    repeat split; auto.
    + pose proof (list_remove_length position (positions self)). lia.
    + intros p Hp'. eapply list_remove_In, Hin, Hp'.
    + eexists (_ :: closed). rewrite Hth, <- app_assoc. split; [reflexivity|].
      split; [exact Hav|]. split; [|discriminate].
      constructor.
      * split; [reflexivity|]. exists position. simpl.
        split; [eapply nth_error_In, Hnth|]. split; [reflexivity|exact Hcv].
      * eapply List.Forall_impl; [|exact Hall].
        intros r (Hd & p & Hp' & He' & Hc). split; [exact Hd|].
        exists p. split; [eapply list_remove_In, Hp'|]. split; [exact He'|].
        exact Hc.
Qed.


Lemma appended_app self self' (closed : list TradeRecord.t) :
  trade_history self' = trade_history self ++ closed ->
  appended self self' = closed.
Proof.
  intros H. unfold appended. rewrite H.
  generalize (trade_history self) as l.
  induction l as [|x tl IH]; simpl; [reflexivity|exact IH].
Qed.

Lemma manage_positions_S (fuel i : nat) self (av : Q) d :
  manage_positions (S fuel) i self av d =
  match nth_error (positions self) i with
  | None => (self, av)
  | Some position =>
    if is_empty (filter_0dte_options self d)
    then manage_positions fuel (S i) self av d
    else
      match calculate_current_value position (filter_0dte_options self d) with
      | None => manage_positions fuel (S i) self av d
      | Some cv =>
        let pct := div (Fin cv) (Fin (Position.max_risk position)) in
        if exit_condition self position d pct
        then
          manage_positions fuel (S i)
            (set_positions
               (set_trade_history self
                  (trade_history self ++
                   [{| TradeRecord.entry_date := Position.entry_date position;
                       TradeRecord.exit_date := d;
                       TradeRecord.profit_loss := cv;
                       TradeRecord.profit_pct := pct |}]))
               (list_remove position (positions self)))
            (av + cv)%Q d
        else manage_positions fuel (S i) self av d
      end
  end.
Proof. reflexivity. Qed.

(** The iteration count never exceeds the length of the list on entry:
    more fuel changes nothing. *)
Lemma manage_positions_fuel (fuel : nat) :
  forall (i : nat) self (av : Q) d,
    (length (positions self) <= fuel + i)%nat ->
    manage_positions (S fuel) i self av d = manage_positions fuel i self av d.
Proof.
  induction fuel as [|fuel IH]; intros i self av d Hlen.
  - simpl. destruct (nth_error (positions self) i) eqn:Hn; [|reflexivity].
    assert (i < length (positions self))%nat
      by (apply nth_error_Some; congruence).
    simpl in Hlen. lia.
  - rewrite (manage_positions_S (S fuel) i self av d), (manage_positions_S fuel i self av d).
    destruct (nth_error (positions self) i) as [position|]; [|reflexivity].
    destruct (is_empty _); [apply IH; lia|].
    destruct (calculate_current_value _ _); [|apply IH; lia].
    cbv zeta.
    destruct (exit_condition _ _ _ _); [|apply IH; lia].
    apply IH. simpl.
    pose proof (list_remove_length position (positions self)). lia.
Qed.

(** *** Entry *)

Lemma look_for_new_trades_spec st :
  on_return (fun st' =>
      account_value st' = account_value st /\
      current_date st' = current_date st /\
      trade_history (self st') = trade_history (self st) /\
      qqq_data (self st') = qqq_data (self st) /\
      options_data (self st') = options_data (self st) /\
      params (self st') = params (self st) /\
      (positions (self st) <> [] -> st' = st) /\
      (positions (self st) = [] -> (length (positions (self st')) <= 1)%nat))
    (look_for_new_trades st).
Proof.
  unfold look_for_new_trades.
  destruct (positions (self st)) as [|p ps] eqn:Hpos; simpl.
  - destruct (find_bull_put_spread _ _ _) as [[trade|]|e]; simpl; [| |exact I];
      rewrite ?Hpos; repeat split; auto; try congruence; simpl; lia.
  - repeat split; auto. rewrite Hpos. discriminate.
Qed.

Lemma look_for_new_trades_guard st :
  positions (self st) <> [] -> look_for_new_trades st = Return st.
Proof.
  intros H. unfold look_for_new_trades.
  destruct (positions (self st)); [congruence|reflexivity].
Qed.

(** *** One day *)

Lemma loop_body_spec st :
  on_return (fun st' =>
      current_date st' = (current_date st + 1)%Z /\
      qqq_data (self st') = qqq_data (self st) /\
      options_data (self st') = options_data (self st) /\
      params (self st') = params (self st) /\
      ((length (positions (self st)) <= 1)%nat ->
       (length (positions (self st')) <= 1)%nat) /\
      trade_history (self st') =
        trade_history (self st) ++ appended (self st) (self st') /\
      account_value st' =
        realise (account_value st) (appended (self st) (self st')) /\
      Forall (closes_at (self st) (current_date st))
             (appended (self st) (self st')))
    (loop_body st).
Proof.
  assert (Hskip : on_return (fun st' =>
      current_date st' = (current_date st + 1)%Z /\
      qqq_data (self st') = qqq_data (self st) /\
      options_data (self st') = options_data (self st) /\
      params (self st') = params (self st) /\
      ((length (positions (self st)) <= 1)%nat ->
       (length (positions (self st')) <= 1)%nat) /\
      trade_history (self st') =
        trade_history (self st) ++ appended (self st) (self st') /\
      account_value st' =
        realise (account_value st) (appended (self st) (self st')) /\
      Forall (closes_at (self st) (current_date st))
             (appended (self st) (self st')))
    (Return (next_day st))).
  { simpl. rewrite (appended_app (self st) (self st) []) by now rewrite app_nil_r.
    rewrite app_nil_r. repeat split; auto. }
  unfold loop_body.
  destruct (5 <=? weekday (current_date st))%Z; [exact Hskip|].
  destruct (is_empty _); [exact Hskip|]. clear Hskip.
  destruct (manage_positions _ _ _ _ _) as [self1 account1] eqn:Hm.
  apply manage_positions_spec in Hm.
  destruct Hm as (Hq & Ho & Hp & Hlen & _ & closed & Hth & Hav & Hall & _).
  pose proof (look_for_new_trades_spec
    {| self := self1; account_value := account1;
       current_date := current_date st; results := results st |}) as Hl.
  destruct (look_for_new_trades _) as [st2|e]; simpl in *; [|exact I].
  destruct Hl as (Hav2 & Hd2 & Hth2 & Hq2 & Ho2 & Hp2 & Hne & Hnil).
  assert (Happ : appended (self st) (self st2) = closed)
    by (apply appended_app; congruence).
  rewrite Happ.
  repeat split; try congruence.
  intros Hle. destruct (positions self1) as [|p ps] eqn:Hpos.
  - now apply Hnil.
  - rewrite Hne by discriminate. simpl. rewrite Hpos. simpl in *. lia.
Qed.

(** *** The whole loop *)

Lemma while_loop_invariant (P : Locals -> Prop) :
  (forall st, P st -> on_return P (loop_body st)) ->
  forall (fuel : nat) (end_date : date) st,
    P st -> on_return P (while_loop fuel end_date st).
Proof.
  intros Hstep fuel end_date. induction fuel as [|fuel IH]; intros st HP; simpl; auto.
  destruct (current_date st <=? end_date)%Z; simpl; auto.
  specialize (Hstep st HP). destruct (loop_body st) as [st'|e]; simpl in *; auto.
Qed.

(** Enough fuel: the loop leaves with the date past [end_date]. *)
Lemma while_loop_exits (fuel : nat) (end_date : date) :
  forall st,
    (end_date - current_date st + 1 <= Z.of_nat fuel)%Z ->
    on_return (fun st' => (end_date < current_date st')%Z)
              (while_loop fuel end_date st).
Proof.
  induction fuel as [|fuel IH]; intros st Hf; simpl.
  - lia.
  - destruct (current_date st <=? end_date)%Z eqn:Hc; simpl; [|lia].
    pose proof (loop_body_spec st) as Hb.
    destruct (loop_body st) as [st'|e]; simpl in *; auto.
    apply IH. destruct Hb as (Hd & _). lia.
Qed.

End Driver.

(** * The claims about the driver *)

Section DriverClaims.

Import BullPutSpreadStrategy.

Implicit Types (self : BullPutSpreadStrategy.t) (st : Locals) (d : date).

Lemma app_eq_self {A : Type} (l closed : list A) : l = l ++ closed -> closed = [].
Proof.
  intros H. apply (app_inv_head l). now rewrite app_nil_r.
Qed.

(** C2: at every simulated day of a run the active list holds at most
    one position.  The bound holds after any number of passes of the day
    loop and between the management loop and the entry block; a position
    leaves the list only together with a trade record; the entry block
    does nothing while the list is not empty. *)
Theorem at_most_one_open_position self0 (start_date end_date : date)
    (initial_capital : Q) (days : nat) :
  (length (positions self0) <= 1)%nat ->
  on_return (fun st =>
      (length (positions (self st)) <= 1)%nat /\
      (forall self1 account1,
          manage_positions (length (positions (self st))) 0 (self st)
                           (account_value st) (current_date st)
            = (self1, account1) ->
          (length (positions self1) <= 1)%nat /\
          (trade_history self1 = trade_history (self st) ->
           positions self1 = positions (self st))) /\
      (positions (self st) <> [] -> look_for_new_trades st = Return st))
    (while_loop days end_date (initial_locals self0 start_date initial_capital)).
Proof.
  intros H0.
  pose proof (while_loop_invariant
    (fun st => (length (positions (self st)) <= 1)%nat)) as Hinv.
  specialize (Hinv (fun st HP =>
    match loop_body st as o
      return on_return _ o -> on_return _ o with
    | Return st' => fun Hs => proj1 (proj2 (proj2 (proj2 (proj2 Hs)))) HP
    | Raise e => fun _ => I
    end (loop_body_spec st))).
  specialize (Hinv days end_date (initial_locals self0 start_date initial_capital) H0).
  destruct (while_loop _ _ _) as [st|e]; simpl in *; [|exact I].
  split; [exact Hinv|]. split; [|apply look_for_new_trades_guard].
  intros self1 account1 Hm. apply manage_positions_spec in Hm.
  destruct Hm as (_ & _ & _ & Hlen & _ & closed & Hth & _ & _ & Hsame).
  split; [lia|]. intros Heq. rewrite Heq in Hth.
  apply app_eq_self in Hth. now rewrite (Hsame Hth).
Qed.

Lemma at_most_one_open_position_witness :
  (length (positions Scenario.strategy) <= 1)%nat /\
  on_return (fun st => (length (positions (self st)) <= 1)%nat)
    (while_loop 90 Scenario.day_after
       (initial_locals Scenario.strategy Scenario.monday 100000)).
Proof.
  assert (H0 : (length (positions Scenario.strategy) <= 1)%nat)
    by (vm_compute; lia).
  split; [exact H0|].
  generalize (at_most_one_open_position Scenario.strategy Scenario.monday
                Scenario.day_after 100000 90 H0).
  generalize (while_loop 90 Scenario.day_after
                (initial_locals Scenario.strategy Scenario.monday 100000)).
  intros [st|e]; [intros H; exact (proj1 H)|intros _; exact I].
Defined.

(** The run of the example does return, with one position open. *)
Example scenario_run_returns :
  match while_loop 90 Scenario.day_after
          (initial_locals Scenario.strategy Scenario.monday 100000) with
  | Return st => length (positions (self st)) = 1%nat
  | Raise _ => False
  end.
Proof. vm_compute. reflexivity. Qed.

(** C10: opening a position leaves the account alone; over one pass of
    the day loop, and over any number of passes, the account moves by
    exactly the values of the trade records appended, each of which is
    the value [calculate_current_value] gave for a position closed that
    day. *)
Theorem account_changes_only_at_close self0 (start_date end_date : date)
    (initial_capital : Q) (days : nat) st :
  on_return (fun st' =>
      account_value st' = account_value st /\
      trade_history (self st') = trade_history (self st))
    (look_for_new_trades st) /\
  on_return (fun st' =>
      trade_history (self st') =
        trade_history (self st) ++ appended (self st) (self st') /\
      account_value st' =
        realise (account_value st) (appended (self st) (self st')) /\
      Forall (closes_at (self st) (current_date st))
             (appended (self st) (self st')))
    (loop_body st) /\
  on_return (fun st' =>
      trade_history (self st') =
        trade_history self0 ++ appended self0 (self st') /\
      account_value st' = realise initial_capital (appended self0 (self st')))
    (while_loop days end_date (initial_locals self0 start_date initial_capital)).
Proof.
  split; [|split].
  - pose proof (look_for_new_trades_spec st) as H.
    destruct (look_for_new_trades st); simpl in *; intuition.
  - pose proof (loop_body_spec st) as H.
    destruct (loop_body st); simpl in *; intuition.
  - pose proof (while_loop_invariant
      (fun s => exists closed,
           trade_history (self s) = trade_history self0 ++ closed /\
           account_value s = realise initial_capital closed)) as Hinv.
    assert (Hstep : forall s,
      (exists closed,
           trade_history (self s) = trade_history self0 ++ closed /\
           account_value s = realise initial_capital closed) ->
      on_return (fun s' => exists closed,
           trade_history (self s') = trade_history self0 ++ closed /\
           account_value s' = realise initial_capital closed) (loop_body s)).
    { intros s (closed & Hth & Hav).
      pose proof (loop_body_spec s) as Hb.
      destruct (loop_body s) as [s'|e]; simpl in *; [|exact I].
      destruct Hb as (_ & _ & _ & _ & _ & Hth' & Hav' & _).
      exists (closed ++ appended (self s) (self s')). split.
      - rewrite Hth', Hth. now rewrite app_assoc.
      - rewrite Hav', Hav. now rewrite realise_app. }
    specialize (Hinv Hstep days end_date
                  (initial_locals self0 start_date initial_capital)).
    assert (H0 : exists closed,
      trade_history (self (initial_locals self0 start_date initial_capital))
        = trade_history self0 ++ closed /\
      account_value (initial_locals self0 start_date initial_capital)
        = realise initial_capital closed).
    { exists []. simpl. now rewrite app_nil_r. }
    specialize (Hinv H0).
    destruct (while_loop _ _ _) as [s|e]; simpl in *; [|exact I].
    destruct Hinv as (closed & Hth & Hav).
    rewrite (appended_app self0 (self s) closed Hth). auto.
Qed.

(** A run with a close: entered on [entry_day], the position is bought
    back the next trading day at the profit target; one trade record,
    the account up by its value, nothing left open. *)
Example winning_run_closes_next_day :
  match run_backtest Scenario.winning_strategy Scenario.monday
          Scenario.day_after 100000 with
  | Return (r, s) =>
      positions s = [] /\
      map (fun t => (TradeRecord.entry_date t, TradeRecord.exit_date t,
                     Qred (TradeRecord.profit_loss t)))
          (res_trade_history r)
        = [(Scenario.entry_day, Scenario.day_after, 660%Q)] /\
      Qred (final_account r) = 100660%Q
  | Raise _ => False
  end.
Proof. vm_compute. repeat split. Qed.

(** *** Missing quotes *)

Lemma filter_no_put (snapshot : list OptionRow) (k : Q) :
  ~ quotes_put snapshot k ->
  List.filter (fun o => Qeq_bool (strike o) k && String.eqb (option_type o) "put")
              snapshot = [].
Proof.
  intros Hno.
  destruct (List.filter _ snapshot) as [|o rest] eqn:Hf; [reflexivity|].
  exfalso. apply Hno.
  assert (Hin : In o (List.filter
            (fun o => Qeq_bool (strike o) k && String.eqb (option_type o) "put")
            snapshot)) by (rewrite Hf; now left).
  apply filter_In in Hin. destruct Hin as (Hin & Hb).
  apply andb_true_iff in Hb. destruct Hb as (Hk & Ht).
  exists o. split; [exact Hin|]. split.
  - now apply Qeq_bool_iff.
  - now apply String.eqb_eq.
Qed.

Lemma calculate_current_value_missing (position : Position.t)
    (snapshot : list OptionRow) :
  ~ quotes_put snapshot (strike (Position.short_put position)) \/
  ~ quotes_put snapshot (strike (Position.long_put position)) ->
  calculate_current_value position snapshot = None.
Proof.
  intros [H|H]; unfold calculate_current_value;
    rewrite (filter_no_put _ _ H).
  - reflexivity.
  - now destruct (List.filter _ snapshot).
Qed.

(** C7: when a leg of an open position is not quoted in the day's 0DTE
    snapshot the valuation is [None], the iteration of the management
    loop for that position changes nothing, and a day on which it is the
    open position leaves [self], the account and the event list as they
    were: the position stays open. *)
Theorem missing_leg_skips_management st (i : nat) (position : Position.t) :
  nth_error (positions (self st)) i = Some position ->
  ~ quotes_put (filter_0dte_options (self st) (current_date st))
               (strike (Position.short_put position)) \/
  ~ quotes_put (filter_0dte_options (self st) (current_date st))
               (strike (Position.long_put position)) ->
  calculate_current_value position
    (filter_0dte_options (self st) (current_date st)) = None /\
  (forall fuel,
      manage_positions (S fuel) i (self st) (account_value st) (current_date st)
      = manage_positions fuel (S i) (self st) (account_value st) (current_date st)) /\
  (positions (self st) = [position] ->
   loop_body st = Return (next_day st) /\
   positions (self (next_day st)) = [position] /\
   account_value (next_day st) = account_value st /\
   trade_history (self (next_day st)) = trade_history (self st)).
Proof.
  intros Hnth Hmiss.
  pose proof (calculate_current_value_missing _ _ Hmiss) as Hnone.
  split; [exact Hnone|]. split.
  - intros fuel. rewrite manage_positions_S, Hnth, Hnone.
    now destruct (is_empty _).
  - intros Hpos. split; [|now rewrite <- Hpos].
    unfold loop_body.
    destruct (5 <=? weekday (current_date st))%Z; [reflexivity|].
    destruct (is_empty (List.filter _ (qqq_data (self st)))); [reflexivity|].
    rewrite Hpos in Hnth. destruct i as [|i]; [clear Hnth|now destruct i].
    rewrite Hpos. simpl length.
    rewrite manage_positions_S, Hpos. simpl nth_error. cbv iota beta.
    rewrite Hnone.
    assert (Hm : (if is_empty (filter_0dte_options (self st) (current_date st))
                  then manage_positions 0 1 (self st) (account_value st) (current_date st)
                  else manage_positions 0 1 (self st) (account_value st) (current_date st))
                 = (self st, account_value st)) by now destruct (is_empty _).
    rewrite Hm.
    rewrite look_for_new_trades_guard by (simpl; rewrite Hpos; discriminate).
    simpl. now destruct st.
Qed.

Lemma missing_leg_skips_management_witness :
  loop_body (initial_locals Scenario.holding_strategy Scenario.day_after 100000)
  = Return (next_day (initial_locals Scenario.holding_strategy Scenario.day_after 100000)).
Proof.
  refine (proj1 (proj2 (proj2 (missing_leg_skips_management
            (initial_locals Scenario.holding_strategy Scenario.day_after 100000)
            0 Scenario.held_position _ _)) _)).
  - reflexivity.
  - right. intros (o & Hin & Hk & _). vm_compute in Hin.
    destruct Hin as [<-|[]]. vm_compute in Hk. discriminate.
  - reflexivity.
Defined.

End DriverClaims.

(** * Properties of the spread selector *)

Section Selector.

Import BullPutSpreadStrategy.
Open Scope Q_scope.

Implicit Types (self : BullPutSpreadStrategy.t) (d : date).

(** *** Truncation *)

Lemma Qle_bool_comp (x y : Q) : x == y -> Qle_bool 0 x = Qle_bool 0 y.
Proof.
  intros H. destruct (Qle_bool 0 x) eqn:Hx, (Qle_bool 0 y) eqn:Hy; auto.
  - apply Qle_bool_iff in Hx. rewrite H in Hx. apply Qle_bool_iff in Hx. congruence.
  - apply Qle_bool_iff in Hy. rewrite <- H in Hy. apply Qle_bool_iff in Hy. congruence.
Qed.

Lemma Qtrunc_comp (x y : Q) : x == y -> Qtrunc x = Qtrunc y.
Proof.
  intros H. unfold Qtrunc. rewrite (Qle_bool_comp x y H).
  destruct (Qle_bool 0 y); [now apply Qfloor_comp|now apply Qceiling_comp].
Qed.

Lemma div_Fin (a b : Q) : ~ b == 0 -> div (Fin a) (Fin b) = Fin (a / b).
Proof.
  intros H. simpl. destruct (Qeq_bool b 0) eqn:Hb; [|reflexivity].
  apply Qeq_bool_iff in Hb. contradiction.
Qed.

(** *** Heads of filtered frames *)

Lemma filter_head_In {A : Type} (f : A -> bool) (l : list A) (x : A) (rest : list A) :
  List.filter f l = x :: rest -> In x l /\ f x = true.
Proof.
  intros H. apply filter_In. rewrite H. now left.
Qed.

(** *** What an emitted candidate went through *)

Lemma find_bull_put_spread_Some self d (av : Q) (tr : Trade.t) :
  find_bull_put_spread self d av = Return (Some tr) ->
  let w := width_between_strikes (params self) in
  let sp := Trade.short_put tr in
  let lp := Trade.long_put tr in
  has_bar self d /\
  In sp (filter_0dte_options self d) /\
  In lp (filter_0dte_options self d) /\
  option_type sp = "put" /\ option_type lp = "put" /\
  (-0.35 <= delta sp /\ delta sp <= -0.25) /\
  strike lp == strike sp - w /\
  Trade.max_risk tr = (strike sp - (strike sp - w)) * 100 - (bid sp - ask lp) * 100 /\
  ~ Trade.max_risk tr == 0 /\
  Trade.num_spreads tr
    = Qtrunc (av * max_position_size (params self) / Trade.max_risk tr) /\
  Trade.num_spreads tr <> 0%Z /\
  Trade.max_profit tr = (bid sp - ask lp) * 100 * inject_Z (Trade.num_spreads tr).
Proof.
  unfold find_bull_put_spread.
  destruct (List.filter _ (qqq_data self)) as [|bar rest] eqn:Hbar; [discriminate|].
  destruct (_ || _); [discriminate|].
  destruct (is_empty _); [discriminate|].
  destruct (List.filter (fun o => Qle_bool _ _ && _) _) as [|sp rest1] eqn:Hsp;
    [discriminate|].
  destruct (List.filter (fun o => Qeq_bool _ _) _) as [|lp rest2] eqn:Hlp;
    [discriminate|].
  apply filter_head_In in Hbar, Hsp, Hlp.
  destruct Hbar as (Hbin & Hbd), Hsp as (Hsin & Hsb), Hlp as (Hlin & Hlb).
  apply filter_In in Hsin, Hlin.
  destruct Hsin as (Hsin & Hst), Hlin as (Hlin & Hlt).
  apply andb_true_iff in Hsb. destruct Hsb as (Hlo & Hhi).
  simpl.
  destruct (Qeq_bool ((strike sp - (strike sp - width_between_strikes (params self))) * 100
                      - (bid sp - ask lp) * 100) 0) eqn:Hz.
  { destruct (Qeq_bool (av * _) 0); simpl; discriminate. }
  simpl. destruct (Z.eqb _ 0) eqn:Hn; [discriminate|].
  intros H. injection H as <-. simpl.
  repeat split.
  - exists bar. split; [exact Hbin|now apply Z.eqb_eq].
  - exact Hsin.
  - exact Hlin.
  - now apply String.eqb_eq.
  - now apply String.eqb_eq.
  - now apply Qle_bool_iff.
  - now apply Qle_bool_iff.
  - now apply Qeq_bool_iff.
  - intros Habs. apply Qeq_bool_iff in Habs. congruence.
  - now apply Z.eqb_neq.
Qed.

(** C4 fails on the code: the only test on an emitted candidate is
    [num_spreads == 0].  With a short put bid 7.00 and a long put asked
    0.50 at width 5 the strikes are the width apart, but [max_risk] is
    -150 and the count is -33; the candidate is returned, and the day
    loop opens a position of -33 spreads from it. *)
Theorem negative_risk_candidate_is_traded :
  exists tr r s p,
    find_bull_put_spread Scenario.rich_strategy Scenario.entry_day 100000
      = Return (Some tr) /\
    bid (Trade.short_put tr) == 7 /\
    ask (Trade.long_put tr) == 0.5 /\
    strike (Trade.short_put tr) - strike (Trade.long_put tr)
      == width_between_strikes (params Scenario.rich_strategy) /\
    Trade.max_risk tr == -150 /\
    Trade.num_spreads tr = (-33)%Z /\
    run_backtest Scenario.rich_strategy Scenario.monday Scenario.entry_day 100000
      = Return (r, s) /\
    positions s = [p] /\
    Position.entry_date p = Scenario.entry_day /\
    Position.num_spreads p = (-33)%Z /\
    Position.max_risk p == -150 /\
    map Event.action (res_results r) = ["ENTRY"].
Proof.
  eexists _, _, _, _. split; [vm_compute; reflexivity|].
  split; [reflexivity|]. split; [reflexivity|]. split; [reflexivity|].
  split; [reflexivity|]. split; [reflexivity|].
  split; [vm_compute; reflexivity|].
  split; [reflexivity|]. split; [reflexivity|]. split; [reflexivity|].
  split; reflexivity.
Qed.

(** C3: the sizing scenario.  Whenever the selector picks a short put
    bid 1.20 and a long put asked 0.40, with width 5, position size 0.05
    and an account of 100000, the net credit is 0.80, the candidate has
    [max_risk] 420 and 11 spreads, and the position opened from it has
    an initial credit of 880 and leaves the account at 100000. *)
Theorem sizing_scenario self d (bar : Bar) (sp lp : OptionRow)
    (rest : list Bar) (rest1 rest2 : list OptionRow) (events : list Event.t) :
  List.filter (fun b => Z.eqb (bar_date b) d) (qqq_data self) = bar :: rest ->
  ltb (rsi bar) (Fin (entry_rsi_threshold (params self)))
    || ltb (sma_20 bar) (sma_50 bar) = false ->
  List.filter (fun o => Qle_bool (-0.35) (delta o) && Qle_bool (delta o) (-0.25))
    (List.filter (fun o => String.eqb (option_type o) "put")
       (filter_0dte_options self d)) = sp :: rest1 ->
  List.filter (fun o => Qeq_bool (strike o)
                          (strike sp - width_between_strikes (params self)))
    (List.filter (fun o => String.eqb (option_type o) "put")
       (filter_0dte_options self d)) = lp :: rest2 ->
  width_between_strikes (params self) == 5 ->
  max_position_size (params self) == 0.05 ->
  bid sp == 1.20 ->
  ask lp == 0.40 ->
  positions self = [] ->
  bid sp - ask lp == 0.80 /\
  exists tr,
    find_bull_put_spread self d 100000 = Return (Some tr) /\
    Trade.short_put tr = sp /\ Trade.long_put tr = lp /\
    Trade.max_risk tr == 420 /\
    Trade.num_spreads tr = 11%Z /\
    exists st' p,
      look_for_new_trades
        {| BullPutSpreadStrategy.self := self; account_value := 100000;
           current_date := d; results := events |} = Return st' /\
      positions (BullPutSpreadStrategy.self st') = [p] /\
      Position.initial_credit p == 880 /\
      account_value st' = 100000.
Proof.
  intros Hbar Hgate Hsp Hlp Hw Hm Hb Ha Hpos.
  split; [lra|].
  set (risk := (strike sp - (strike sp - width_between_strikes (params self))) * 100
               - (bid sp - ask lp) * 100).
  assert (Hrisk : risk == 420) by (unfold risk; lra).
  assert (Hnz : ~ risk == 0) by (rewrite Hrisk; discriminate).
  assert (Hn : Qtrunc (100000 * max_position_size (params self) / risk) = 11%Z).
  { transitivity (Qtrunc (100000 * 0.05 / 420)); [|reflexivity].
    apply Qtrunc_comp. now rewrite Hm, Hrisk. }
  assert (Hfind : find_bull_put_spread self d 100000 =
    Return (Some {| Trade.short_put := sp; Trade.long_put := lp;
                    Trade.num_spreads := 11; Trade.max_risk := risk;
                    Trade.max_profit := (bid sp - ask lp) * 100 * inject_Z 11 |})).
  { unfold find_bull_put_spread. rewrite Hbar, Hgate.
    destruct (filter_0dte_options self d) as [|o os] eqn:Hopt; [discriminate|].
    cbn [is_empty]. rewrite Hsp, Hlp. fold risk.
    rewrite (div_Fin _ _ Hnz). cbn [int bind]. rewrite Hn. reflexivity. }
  eexists. split; [exact Hfind|]. cbn [Trade.short_put Trade.long_put
    Trade.max_risk Trade.num_spreads].
  repeat split; auto.
  unfold look_for_new_trades. cbn [BullPutSpreadStrategy.self account_value current_date].
  rewrite Hpos. cbn [is_empty]. rewrite Hfind. cbn [bind].
  eexists _, _. split; [reflexivity|].
  cbn [BullPutSpreadStrategy.self positions set_positions account_value
       Position.initial_credit Trade.short_put Trade.long_put
       Trade.num_spreads app].
  split; [reflexivity|]. split; [|reflexivity].
  unfold Position.initial_credit. change (inject_Z 11) with 11. lra.
Qed.

Lemma sizing_scenario_witness :
  exists tr,
    find_bull_put_spread Scenario.strategy Scenario.entry_day 100000
      = Return (Some tr) /\
    Trade.max_risk tr == 420 /\ Trade.num_spreads tr = 11%Z.
Proof.
  edestruct (sizing_scenario Scenario.strategy Scenario.entry_day)
    with (events := @nil Event.t)
    as (_ & tr & Hf & _ & _ & Hr & Hn & _).
  - vm_compute. reflexivity.
  - vm_compute. reflexivity.
  - vm_compute. reflexivity.
  - vm_compute. reflexivity.
  - reflexivity.
  - reflexivity.
  - reflexivity.
  - reflexivity.
  - reflexivity.
  - exists tr. auto.
Defined.

(** *** Undefined indicators *)

(** Every ordered comparison with NaN is false. *)
Lemma nan_compares_false (x : pyfloat) :
  ltb NaN x = false /\ leb NaN x = false /\
  ltb x NaN = false /\ leb x NaN = false.
Proof. destruct x; repeat split; reflexivity. Qed.

(** The entry gate rejects on [rsi < threshold]: with an undefined RSI
    only the moving averages decide. *)
Lemma nan_rsi_gate (bar : Bar) (threshold : Q) :
  rsi bar = NaN ->
  ltb (rsi bar) (Fin threshold) || ltb (sma_20 bar) (sma_50 bar)
  = ltb (sma_20 bar) (sma_50 bar).
Proof. intros H. now rewrite H. Qed.

(** C5 fails on the code: on a flat price series the 14-bar averages of
    gains and losses are both 0, the RSI of the day is NaN (0/0), and
    the selector still returns a candidate of 11 spreads; the same
    happens on the first bar of a series, where no window is full. *)
Theorem nan_rsi_opens_trade :
  (exists bar rest,
      List.filter (fun b => Z.eqb (bar_date b) Scenario.entry_day)
                  (qqq_data Scenario.flat_strategy) = bar :: rest /\
      rsi bar = NaN /\
      is_finite (sma_20 bar) = true /\ is_finite (sma_50 bar) = true) /\
  (exists tr,
      find_bull_put_spread Scenario.flat_strategy Scenario.entry_day 100000
        = Return (Some tr) /\
      Trade.num_spreads tr = 11%Z) /\
  (exists bar rest,
      List.filter (fun b => Z.eqb (bar_date b) Scenario.monday)
                  (qqq_data Scenario.one_bar_strategy) = bar :: rest /\
      rsi bar = NaN /\ sma_20 bar = NaN /\ sma_50 bar = NaN) /\
  (exists tr,
      find_bull_put_spread Scenario.one_bar_strategy Scenario.monday 100000
        = Return (Some tr) /\
      Trade.num_spreads tr = 11%Z).
Proof.
  split; [|split; [|split]].
  - eexists _, _. split; [vm_compute; reflexivity|]. repeat split.
  - eexists. split; [vm_compute; reflexivity|]. reflexivity.
  - eexists _, _. split; [vm_compute; reflexivity|]. repeat split.
  - eexists. split; [vm_compute; reflexivity|]. reflexivity.
Qed.

(** *** Dates without a price bar *)

Lemma has_bar_filter self d :
  has_bar self d <->
  List.filter (fun b => Z.eqb (bar_date b) d) (qqq_data self) <> [].
Proof.
  split.
  - intros (b & Hin & Hd) Hnil.
    assert (Hf : In b (List.filter (fun b => Z.eqb (bar_date b) d) (qqq_data self))).
    { apply filter_In. split; [exact Hin|]. now apply Z.eqb_eq. }
    rewrite Hnil in Hf. destruct Hf.
  - intros Hne.
    destruct (List.filter _ (qqq_data self)) as [|b rest] eqn:Hf; [congruence|].
    apply filter_head_In in Hf. destruct Hf as (Hin & Hd).
    exists b. split; [exact Hin|]. now apply Z.eqb_eq.
Qed.






End Selector.

Section Expiry.

Import BullPutSpreadStrategy.

Implicit Types (self : BullPutSpreadStrategy.t) (st : Locals) (d : date).

(** The entry block runs after the management loop: a position opened
    in a pass of the day loop is in the active list when the pass ends,
    with the day of the pass as its expiry. *)
Lemma entry_survives_the_day st :
  on_return (fun st' =>
      forall ev, results st' = results st ++ [ev] ->
        positions (self st') = [Event.trade_details ev] /\
        Position.expiry_date (Event.trade_details ev) = current_date st /\
        current_date st' = (current_date st + 1)%Z)
    (loop_body st).
Proof.
  unfold loop_body.
  assert (Hsame : forall ev, results st = results st ++ [ev] -> False).
  { intros ev H. apply app_eq_self in H. discriminate. }
  destruct (5 <=? weekday (current_date st))%Z;
    [simpl; intros ev H; now apply Hsame in H|].
  destruct (is_empty (List.filter _ _));
    [simpl; intros ev H; now apply Hsame in H|].
  destruct (manage_positions _ _ _ _ _) as [self1 account1].
  unfold look_for_new_trades. simpl.
  destruct (positions self1) as [|q qs] eqn:Hpos; simpl;
    [|intros ev H; now apply Hsame in H].
  destruct (find_bull_put_spread self1 (current_date st) account1)
    as [[trade|]|e]; simpl; [| intros ev H; now apply Hsame in H | exact I].
  intros ev H. apply app_inv_head in H. injection H as <-.
  simpl. auto.
Qed.

(** C1 fails on the code: the position opened on [entry_day] with that
    day as its expiry is not closed that day, since management runs
    before entry; on the next trading day it is valued at -220, neither
    the profit target nor the stop is hit, the dates differ, and the run
    ends with the position still open, no trade record and the account
    unchanged. *)
Theorem position_outlives_expiry :
  exists r s p cv,
    run_backtest Scenario.strategy Scenario.monday Scenario.day_after 100000
      = Return (r, s) /\
    positions s = [p] /\
    Position.entry_date p = Scenario.entry_day /\
    Position.expiry_date p = Scenario.entry_day /\
    (Scenario.entry_day < Scenario.day_after)%Z /\
    weekday Scenario.day_after = 4%Z /\
    has_bar s Scenario.day_after /\
    calculate_current_value p (filter_0dte_options s Scenario.day_after) = Some cv /\
    (cv == -220)%Q /\
    exit_condition s p Scenario.day_after (div (Fin cv) (Fin (Position.max_risk p)))
      = false /\
    res_trade_history r = [] /\
    final_account r = 100000%Q.
Proof.
  eexists _, _, _, _. split; [vm_compute; reflexivity|].
  split; [reflexivity|]. split; [reflexivity|]. split; [reflexivity|].
  split; [reflexivity|]. split; [reflexivity|].
  split.
  { apply has_bar_filter. vm_compute. discriminate. }
  split; [vm_compute; reflexivity|].
  split; [reflexivity|]. split; [vm_compute; reflexivity|].
  split; reflexivity.
Qed.





End Expiry.

(** * The price fetcher *)

Section Fetcher.

Import backtest_alpha_vantage.

Variable requests_get : string -> list (string * string) -> outcome Response.
Variable DataFrame : Type.
Variable frame_of_time_series : string -> json -> outcome DataFrame.
Variable str : json -> string.

Local Abbreviation fetch :=
  (get_intraday_data requests_get DataFrame frame_of_time_series str).

Lemma get_intraday_data_no_key (symbol interval size : string) :
  fetch symbol interval None size = Raise ValueError.
Proof. reflexivity. Qed.

(** C9: with the reply of the service in hand, the fetch raises when the
    status is not 200, when the payload has an 'Error Message' key, and
    when the 'Time Series (<interval>)' key is absent; it returns a
    frame only when the status is 200, the payload decodes, has no error
    key and has the series key, the frame being the conversion of that
    series. *)
Theorem get_intraday_data_failures (symbol interval key size : string)
    (response : Response) :
  requests_get "https://www.alphavantage.co/query"
               (query symbol interval key size) = Return response ->
  ((status_code response <> 200%Z \/
    exists data, json_ response = Return data /\
      (is_Some (data !! "Error Message") \/
       data !! time_series_key interval = None)) ->
   exists msg, fetch symbol interval (Some key) size = Raise (Exception msg)) /\
  (forall df, fetch symbol interval (Some key) size = Return df ->
     status_code response = 200%Z /\
     exists data series,
       json_ response = Return data /\
       data !! "Error Message" = None /\
       data !! time_series_key interval = Some series /\
       frame_of_time_series symbol series = Return df).
Proof.
  intros Hget. unfold fetch, get_intraday_data. rewrite Hget. simpl.
  destruct (Z.eqb (status_code response) 200) eqn:Hs; simpl.
  - apply Z.eqb_eq in Hs. split.
    + intros [Hne|(data & Hj & Hbad)]; [contradiction|].
      rewrite Hj. simpl. destruct Hbad as [[m Hm]|Hnone].
      * rewrite Hm. eauto.
      * destruct (data !! "Error Message"); [eauto|]. rewrite Hnone. eauto.
    + intros df. destruct (json_ response) as [data|e]; simpl; [|discriminate].
      destruct (data !! "Error Message") eqn:He; [discriminate|].
      destruct (data !! time_series_key interval) as [series|] eqn:Ht;
        [|discriminate].
      intros Hf. split; [exact Hs|]. exists data, series. auto.
  - split; [eauto|discriminate].
Qed.

End Fetcher.

Lemma get_intraday_data_failures_witness :
  exists msg,
    backtest_alpha_vantage.get_intraday_data
      (Scenario.canned Scenario.rate_limited) Scenario.frame
      Scenario.rows_of Scenario.show "QQQ" "1min" (Some "demo") "full"
    = Raise (Exception msg).
Proof.
  refine (proj1 (get_intraday_data_failures
            (Scenario.canned Scenario.rate_limited) Scenario.frame
            Scenario.rows_of Scenario.show "QQQ" "1min" "demo" "full"
            Scenario.rate_limited eq_refl) _).
  left. discriminate.
Defined.


(** * Further properties of the backtest driver *)

Section DriverTrace.

Import BullPutSpreadStrategy.

Implicit Types (self : BullPutSpreadStrategy.t) (st : Locals) (d : date).

Lemma list_remove_present (x : Position.t) (l : list Position.t) :
  In x l -> S (length (list_remove x l)) = length l.
Proof.
  induction l as [|y tl IH]; simpl; [tauto|].
  intros [->|Hin].
  - now rewrite Position_eqb_refl.
  - destruct (Position_eqb y x); [reflexivity|]. simpl. now rewrite IH.
Qed.

(** Each close of the management loop appends one record that met the
    exit test and takes exactly one position off the list. *)
Lemma manage_positions_closes (fuel : nat) :
  forall (i : nat) self (av : Q) d self' (av' : Q),
    manage_positions fuel i self av d = (self', av') ->
    exists closed,
      trade_history self' = trade_history self ++ closed /\
      Forall (closed_by_rule self d) closed /\
      (length (positions self') + length closed)%nat = length (positions self).
Proof.
  induction fuel as [|fuel IH]; intros i self av d self' av' H.
  - simpl in H. inversion H; subst. exists []. rewrite app_nil_r.
    repeat split; auto.
  - rewrite manage_positions_S in H.
    destruct (nth_error (positions self) i) as [position|] eqn:Hnth.
    2:{ inversion H; subst. exists []. rewrite app_nil_r. repeat split; auto. }
    destruct (is_empty (filter_0dte_options self d)); [now apply IH in H|].
    destruct (calculate_current_value position (filter_0dte_options self d))
      as [cv|] eqn:Hcv; [|now apply IH in H].
    cbv zeta in H.
    destruct (exit_condition self position d _) eqn:Hex; [|now apply IH in H].
    apply IH in H. destruct H as (closed & Hth & Hall & Hlen).
    assert (Hin : In position (positions self)) by (eapply nth_error_In, Hnth).
    eexists (_ :: closed). simpl in Hth. rewrite Hth, <- app_assoc.
    split; [reflexivity|]. split.
    + constructor.
      * exists position. simpl. repeat split; auto.
      * eapply List.Forall_impl; [|exact Hall].
        intros r (p & Hp & He & Hd & Hc & Hpct & Hx).
        exists p. split; [eapply list_remove_In, Hp|]. repeat split; auto.
    + simpl in Hlen. simpl.
      pose proof (list_remove_present position (positions self) Hin). lia.
Qed.

Lemma pass_effect_intro st st' (closed : list TradeRecord.t)
    (kept opened : list Position.t) (events : list Event.t) :
  current_date st' = (current_date st + 1)%Z ->
  qqq_data (self st') = qqq_data (self st) ->
  options_data (self st') = options_data (self st) ->
  params (self st') = params (self st) ->
  trade_history (self st') = trade_history (self st) ++ closed ->
  results st' = results st ++ events ->
  Forall (closed_by_rule (self st) (current_date st)) closed ->
  positions (self st') = kept ++ opened ->
  (forall p, In p kept -> In p (positions (self st))) ->
  (length kept + length closed)%nat = length (positions (self st)) ->
  length events = length opened ->
  Forall (fun p => Position.entry_date p = current_date st /\
                   Position.expiry_date p = current_date st) opened ->
  Forall (fun ev => Event.date_ ev = current_date st /\
                    Event.action ev = "ENTRY" /\
                    In (Event.trade_details ev) opened) events ->
  (closed <> [] \/ events <> [] -> trading_date (self st) (current_date st)) ->
  pass_effect st st'.
Proof.
  intros. unfold pass_effect. cbv zeta.
  do 4 (split; [assumption|]).
  exists closed, opened, events.
  do 3 (split; [assumption|]).
  split; [exists kept; auto|].
  do 3 (split; [assumption|]). assumption.
Qed.

Lemma loop_body_pass st : on_return (pass_effect st) (loop_body st).
Proof.
  assert (Hskip : pass_effect st (next_day st)).
  { apply (pass_effect_intro st (next_day st) [] (positions (self st)) [] []);
      simpl; rewrite ?app_nil_r; auto.
    intros [H|H]; congruence. }
  unfold loop_body.
  destruct (5 <=? weekday (current_date st))%Z eqn:Hw; [exact Hskip|].
  destruct (is_empty (List.filter _ (qqq_data (self st)))) eqn:Hbar;
    [exact Hskip|]. clear Hskip.
  assert (Htrade : trading_date (self st) (current_date st)).
  { split; [apply Z.leb_gt in Hw; lia|]. apply has_bar_filter.
    intros Hnil. rewrite Hnil in Hbar. discriminate. }
  destruct (manage_positions _ _ _ _ _) as [self1 account1] eqn:Hm.
  pose proof (manage_positions_spec _ _ _ _ _ _ _ Hm)
    as (Hq & Ho & Hp & _ & Hsub & _).
  apply manage_positions_closes in Hm.
  destruct Hm as (closed & Hth & Hall & Hlen).
  unfold look_for_new_trades. simpl.
  destruct (positions self1) as [|q qs] eqn:Hpos.
  - simpl. destruct (find_bull_put_spread self1 (current_date st) account1)
      as [[trade|]|e]; simpl; [| |exact I].
    + eapply (pass_effect_intro st _ closed [] [_] [_]);
        simpl; rewrite ?app_nil_r; auto;
        try (intros p []); try (repeat constructor; simpl; auto; fail).
    + eapply (pass_effect_intro st _ closed [] [] []);
        simpl; rewrite ?app_nil_r; auto; try (intros p []).
  - simpl. eapply (pass_effect_intro st _ closed (q :: qs) [] []);
      simpl; rewrite ?app_nil_r; auto;
      try (intros p Hin; apply Hsub; now rewrite Hpos).
Qed.

Lemma while_loop_guarded_invariant (P : Locals -> Prop) (end_date : date) :
  (forall st, P st -> (current_date st <= end_date)%Z ->
              on_return P (loop_body st)) ->
  forall (fuel : nat) st, P st -> on_return P (while_loop fuel end_date st).
Proof.
  intros Hstep fuel. induction fuel as [|fuel IH]; intros st HP; simpl; auto.
  destruct (current_date st <=? end_date)%Z eqn:Hc; simpl; auto.
  apply Z.leb_le in Hc. specialize (Hstep st HP Hc).
  destruct (loop_body st) as [st'|e]; simpl in *; auto.
Qed.

Lemma exit_condition_expired self (p : Position.t) d (pct : pyfloat) :
  (Position.expiry_date p < d)%Z ->
  exit_condition self p d pct = target_or_stop (params self) pct.
Proof.
  intros H. unfold exit_condition, target_or_stop.
  assert (Hne : Z.eqb d (Position.expiry_date p) = false) by (apply Z.eqb_neq; lia).
  rewrite Hne. now rewrite orb_false_r.
Qed.

(** X1: a position is never closed on the day it was opened, and never
    by the expiry test.  In a run that starts with no position dated on
    or after the start date, every trade record has its exit date after
    its entry date and met the profit target or the stop loss; every
    position still open is already past its expiry date. *)
Theorem no_same_day_close self0 (start_date end_date : date)
    (initial_capital : Q) (days : nat) :
  Forall (fun p => (Position.entry_date p < start_date)%Z /\
                   (Position.expiry_date p < start_date)%Z) (positions self0) ->
  on_return (fun st =>
      Forall (fun p => (Position.entry_date p < current_date st)%Z /\
                       (Position.expiry_date p < current_date st)%Z)
             (positions (self st)) /\
      Forall (fun r => (TradeRecord.entry_date r < TradeRecord.exit_date r)%Z /\
                       target_or_stop (params self0) (TradeRecord.profit_pct r) = true)
             (appended self0 (self st)))
    (while_loop days end_date (initial_locals self0 start_date initial_capital)).
Proof.
  intros H0.
  set (ok_pos := fun (d : date) (p : Position.t) =>
         (Position.entry_date p < d)%Z /\ (Position.expiry_date p < d)%Z).
  set (ok_rec := fun r : TradeRecord.t =>
         (TradeRecord.entry_date r < TradeRecord.exit_date r)%Z /\
         target_or_stop (params self0) (TradeRecord.profit_pct r) = true).
  pose (P := fun st : Locals =>
         params (self st) = params self0 /\
         Forall (ok_pos (current_date st)) (positions (self st)) /\
         exists closed, trade_history (self st) = trade_history self0 ++ closed /\
                        Forall ok_rec closed).
  assert (Hstep : forall st, P st -> on_return P (loop_body st)).
  { intros st (Hpar & Hpos & closed & Hth & Hrec).
    pose proof (loop_body_pass st) as Hb.
    destruct (loop_body st) as [st'|e]; simpl in *; [|exact I].
    destruct Hb as (Hd & _ & _ & Hp & today & opened & events & Hth' & _ &
                    Hrule & (kept & Hk & Hsub & _) & _ & Hop & _ & _).
    split; [congruence|]. split.
    - rewrite Hk, Hd. apply List.Forall_app. split.
      + apply List.Forall_forall. intros p Hin.
        rewrite List.Forall_forall in Hpos. destruct (Hpos p (Hsub p Hin)).
        unfold ok_pos. lia.
      + eapply List.Forall_impl; [|exact Hop]. intros p (He & Hx).
        unfold ok_pos. lia.
    - exists (closed ++ today). split; [rewrite Hth', Hth; now rewrite app_assoc|].
      apply List.Forall_app. split; [exact Hrec|].
      eapply List.Forall_impl; [|exact Hrule].
      intros r (p & Hin & He & Hx & _ & _ & Hex).
      rewrite List.Forall_forall in Hpos. destruct (Hpos p Hin) as (Hlt & Hxp).
      split; [lia|].
      rewrite exit_condition_expired in Hex by exact Hxp. congruence. }
  pose proof (while_loop_invariant P Hstep days end_date
                (initial_locals self0 start_date initial_capital)) as Hinv.
  assert (HP0 : P (initial_locals self0 start_date initial_capital)).
  { split; [reflexivity|]. split; [exact H0|]. exists []. simpl.
    rewrite app_nil_r. split; [reflexivity|constructor]. }
  specialize (Hinv HP0).
  destruct (while_loop _ _ _) as [st|e]; simpl in *; [|exact I].
  destruct Hinv as (_ & Hpos & closed & Hth & Hrec).
  split; [exact Hpos|]. now rewrite (appended_app self0 (self st) closed Hth).
Qed.

Lemma no_same_day_close_witness :
  on_return (fun st =>
      Forall (fun p => (Position.entry_date p < current_date st)%Z /\
                       (Position.expiry_date p < current_date st)%Z)
             (positions (self st)) /\
      Forall (fun r => (TradeRecord.entry_date r < TradeRecord.exit_date r)%Z /\
                       target_or_stop (params Scenario.winning_strategy)
                                      (TradeRecord.profit_pct r) = true)
             (appended Scenario.winning_strategy (self st)))
    (while_loop 90 Scenario.day_after
       (initial_locals Scenario.winning_strategy Scenario.monday 100000)).
Proof.
  apply (no_same_day_close Scenario.winning_strategy Scenario.monday
           Scenario.day_after 100000 90).
  constructor.
Defined.

(** X2: every position the run opens is accounted for.  After any
    number of passes the ENTRY events logged, together with the
    positions open at the start, equal in number the trade records
    appended plus the positions still open. *)
Theorem entries_balance self0 (start_date end_date : date)
    (initial_capital : Q) (days : nat) :
  on_return (fun st =>
      (length (results st) + length (positions self0))%nat
      = (length (appended self0 (self st)) + length (positions (self st)))%nat)
    (while_loop days end_date (initial_locals self0 start_date initial_capital)).
Proof.
  pose (P := fun st : Locals =>
         exists closed, trade_history (self st) = trade_history self0 ++ closed /\
           (length (results st) + length (positions self0))%nat
           = (length closed + length (positions (self st)))%nat).
  assert (Hstep : forall st, P st -> on_return P (loop_body st)).
  { intros st (closed & Hth & Hbal).
    pose proof (loop_body_pass st) as Hb.
    destruct (loop_body st) as [st'|e]; simpl in *; [|exact I].
    destruct Hb as (_ & _ & _ & _ & today & opened & events & Hth' & Hres &
                    _ & (kept & Hk & _ & Hlen) & Hev & _).
    exists (closed ++ today). split; [rewrite Hth', Hth; now rewrite app_assoc|].
    rewrite Hres, Hk, !length_app. lia. }
  pose proof (while_loop_invariant P Hstep days end_date
                (initial_locals self0 start_date initial_capital)) as Hinv.
  assert (HP0 : P (initial_locals self0 start_date initial_capital)).
  { exists []. simpl. now rewrite app_nil_r. }
  specialize (Hinv HP0).
  destruct (while_loop _ _ _) as [st|e]; simpl in *; [|exact I].
  destruct Hinv as (closed & Hth & Hbal).
  now rewrite (appended_app self0 (self st) closed Hth).
Qed.

Lemma has_bar_frame self self' d :
  qqq_data self' = qqq_data self -> has_bar self d -> has_bar self' d.
Proof. intros H (b & Hin & Hd). exists b. now rewrite H. Qed.

(** X3: the run acts only on trading dates of its range.  Every ENTRY
    event, and every trade record appended, is dated on a weekday
    between the start and the end date that has a price bar; the
    position in an ENTRY event is entered and expires on the event's
    date. *)
Theorem activity_only_on_trading_dates self0 (start_date end_date : date)
    (initial_capital : Q) (days : nat) :
  on_return (fun st =>
      Forall (fun ev =>
                (start_date <= Event.date_ ev <= end_date)%Z /\
                trading_date self0 (Event.date_ ev) /\
                Event.action ev = "ENTRY" /\
                Position.entry_date (Event.trade_details ev) = Event.date_ ev /\
                Position.expiry_date (Event.trade_details ev) = Event.date_ ev)
             (results st) /\
      Forall (fun r =>
                (start_date <= TradeRecord.exit_date r <= end_date)%Z /\
                trading_date self0 (TradeRecord.exit_date r))
             (appended self0 (self st)))
    (while_loop days end_date (initial_locals self0 start_date initial_capital)).
Proof.
  set (ok_ev := fun ev : Event.t =>
         (start_date <= Event.date_ ev <= end_date)%Z /\
         trading_date self0 (Event.date_ ev) /\
         Event.action ev = "ENTRY" /\
         Position.entry_date (Event.trade_details ev) = Event.date_ ev /\
         Position.expiry_date (Event.trade_details ev) = Event.date_ ev).
  set (ok_rec := fun r : TradeRecord.t =>
         (start_date <= TradeRecord.exit_date r <= end_date)%Z /\
         trading_date self0 (TradeRecord.exit_date r)).
  pose (P := fun st : Locals =>
         (start_date <= current_date st)%Z /\
         qqq_data (self st) = qqq_data self0 /\
         Forall ok_ev (results st) /\
         exists closed, trade_history (self st) = trade_history self0 ++ closed /\
                        Forall ok_rec closed).
  assert (Hstep : forall st, P st -> (current_date st <= end_date)%Z ->
                             on_return P (loop_body st)).
  { intros st (Hlo & Hq & Hev & closed & Hth & Hrec) Hhi.
    pose proof (loop_body_pass st) as Hb.
    destruct (loop_body st) as [st'|e]; simpl in *; [|exact I].
    destruct Hb as (Hd & Hq' & _ & _ & today & opened & events & Hth' & Hres &
                    Hrule & _ & _ & Hop & Hevs & Htd).
    assert (Htd' : today <> [] \/ events <> [] ->
                   trading_date self0 (current_date st)).
    { intros Hne. destruct (Htd Hne) as (Hw & Hbar). split; [exact Hw|].
      apply (has_bar_frame (self st)); [congruence|exact Hbar]. }
    split; [lia|]. split; [congruence|]. split.
    - rewrite Hres. apply List.Forall_app. split; [exact Hev|].
      apply List.Forall_forall. intros ev Hin.
      rewrite List.Forall_forall in Hevs, Hop.
      destruct (Hevs ev Hin) as (Hdate & Hact & Hdet).
      destruct (Hop _ Hdet) as (Hen & Hex).
      unfold ok_ev. rewrite Hdate.
      split; [lia|]. split; [|auto].
      apply Htd'. right. intros Hnil. rewrite Hnil in Hin. destruct Hin.
    - exists (closed ++ today). split; [rewrite Hth', Hth; now rewrite app_assoc|].
      apply List.Forall_app. split; [exact Hrec|].
      apply List.Forall_forall. intros r Hin.
      rewrite List.Forall_forall in Hrule.
      destruct (Hrule r Hin) as (p & _ & _ & Hx & _).
      unfold ok_rec. rewrite Hx. split; [lia|].
      apply Htd'. left. intros Hnil. rewrite Hnil in Hin. destruct Hin. }
  pose proof (while_loop_guarded_invariant P end_date Hstep days
                (initial_locals self0 start_date initial_capital)) as Hinv.
  assert (HP0 : P (initial_locals self0 start_date initial_capital)).
  { split; [simpl; lia|]. split; [reflexivity|]. split; [constructor|].
    exists []. simpl. rewrite app_nil_r. split; [reflexivity|constructor]. }
  specialize (Hinv HP0).
  destruct (while_loop _ _ _) as [st|e]; simpl in *; [|exact I].
  destruct Hinv as (_ & _ & Hev & closed & Hth & Hrec).
  split; [exact Hev|]. now rewrite (appended_app self0 (self st) closed Hth).
Qed.

(** *** Runs without options data *)







(** *** Performance figures *)

Lemma filter_length_le {A : Type} (f : A -> bool) (l : list A) :
  (length (List.filter f l) <= length l)%nat.
Proof.
  induction l as [|x tl IH]; simpl; [lia|]. destruct (f x); simpl; lia.
Qed.

(** X5: the performance summary of a run with trades.  With a non-empty
    history and a capital other than 0 the summary is computed without
    raising; [total_trades] is the number of records and [win_rate] is
    a finite percentage between 0 and 100. *)
Theorem performance_metrics_win_rate (history : list TradeRecord.t)
    (account initial_capital : Q) (account_is_numpy : bool) :
  history <> [] ->
  ~ (initial_capital == 0)%Q ->
  exists perf w,
    performance_metrics history account initial_capital account_is_numpy
      = Return perf /\
    total_trades perf = length history /\
    win_rate perf = Fin w /\ (0 <= w)%Q /\ (w <= 100)%Q.
Proof.
  intros Hne Hcap. unfold performance_metrics.
  destruct history as [|r rest]; [congruence|]. cbn [is_empty].
  assert (Hz : Qeq_bool initial_capital 0 = false).
  { destruct (Qeq_bool initial_capital 0) eqn:H; [|reflexivity].
    apply Qeq_bool_iff in H. contradiction. }
  rewrite Hz. cbn [andb].
  set (h := r :: rest).
  set (wins := length (List.filter
                 (fun tr => Qlt_bool 0 (TradeRecord.profit_loss tr)) h)).
  assert (Hw : (wins <= length h)%nat) by apply filter_length_le.
  assert (Hpos : (0 < length h)%nat) by (simpl; lia).
  assert (Hden : ~ (inject_Z (Z.of_nat (length h)) == 0)%Q).
  { intros H. unfold Qeq in H. simpl in H. lia. }
  eexists _, _. split; [reflexivity|]. cbn [total_trades win_rate].
  split; [reflexivity|].
  unfold of_Z. rewrite (div_Fin _ _ Hden). cbn [mul].
  split; [reflexivity|].
  assert (H0 : (0 <= inject_Z (Z.of_nat wins))%Q)
    by (rewrite <- (Zle_Qle 0); lia).
  assert (H1 : (inject_Z (Z.of_nat wins) <= inject_Z (Z.of_nat (length h)))%Q)
    by (rewrite <- Zle_Qle; lia).
  assert (Hd : (0 < inject_Z (Z.of_nat (length h)))%Q)
    by (rewrite <- (Zlt_Qlt 0); lia).
  assert (Hr0 : (0 <= inject_Z (Z.of_nat wins) / inject_Z (Z.of_nat (length h)))%Q)
    by (apply Qle_shift_div_l; [exact Hd|lra]).
  assert (Hr1 : (inject_Z (Z.of_nat wins) / inject_Z (Z.of_nat (length h)) <= 1)%Q)
    by (apply Qle_shift_div_r; [exact Hd|lra]).
  split; lra.
Qed.

Lemma performance_metrics_win_rate_witness :
  exists perf w,
    performance_metrics
      [ {| TradeRecord.entry_date := Scenario.entry_day;
           TradeRecord.exit_date := Scenario.day_after;
           TradeRecord.profit_loss := 660;
           TradeRecord.profit_pct := Fin (660 / 420) |} ]
      100660 100000 true = Return perf /\
    total_trades perf = 1%nat /\
    win_rate perf = Fin w /\ (0 <= w)%Q /\ (w <= 100)%Q.
Proof.
  apply performance_metrics_win_rate; discriminate.
Defined.

End DriverTrace.


(** * Further properties of the selector and the valuation *)

Section SelectorMore.

Import BullPutSpreadStrategy.
Open Scope Q_scope.

Implicit Types (self : BullPutSpreadStrategy.t) (d : date).

(** X6: the 0DTE filter returns exactly the rows of the options frame
    whose quote date and expiration date are both the given date, in
    frame order. *)
Theorem filter_0dte_options_rows self d :
  sublist (filter_0dte_options self d) (options_data self) /\
  forall o, In o (filter_0dte_options self d) <->
            In o (options_data self) /\ opt_date o = d /\ expiration_date o = d.
Proof.
  unfold filter_0dte_options. split.
  - generalize (options_data self) as l.
    induction l as [|x tl IH]; simpl; [constructor|].
    destruct (Z.eqb (opt_date x) d); simpl.
    + destruct (Z.eqb (expiration_date x) d); [now constructor|now constructor].
    + now constructor.
  - intros o. rewrite !filter_In, !Z.eqb_eq. tauto.
Qed.

(** The head of a filtered frame is the first row that passes, and
    everything before it fails. *)
Lemma filter_head_split {A : Type} (f : A -> bool) (l : list A) (x : A)
    (rest : list A) :
  List.filter f l = x :: rest ->
  exists pre post, l = pre ++ x :: post /\ f x = true /\
                   Forall (fun y => f y = false) pre.
Proof.
  induction l as [|y tl IH]; simpl; [discriminate|].
  destruct (f y) eqn:Hy.
  - intros H. injection H as -> _. exists [], tl. auto.
  - intros H. destruct (IH H) as (pre & post & -> & Hx & Hpre).
    exists (y :: pre), post. auto.
Qed.

Lemma filter_filter_and {A : Type} (f g : A -> bool) (l : list A) :
  List.filter g (List.filter f l) = List.filter (fun x => f x && g x) l.
Proof.
  induction l as [|y tl IH]; simpl; [reflexivity|].
  destruct (f y); simpl; [destruct (g y)|]; now rewrite IH.
Qed.

Lemma in_delta_band_bool (o : OptionRow) :
  String.eqb (option_type o) "put"
    && (Qle_bool (-0.35) (delta o) && Qle_bool (delta o) (-0.25)) = true
  <-> in_delta_band o.
Proof.
  unfold in_delta_band.
  rewrite !andb_true_iff, String.eqb_eq, !Qle_bool_iff. tauto.
Qed.

(** X7: the tie-break of the selector.  The short leg of an emitted
    candidate is the first put of the date's 0DTE rows, in frame order,
    whose delta is in [-0.35, -0.25]; the long leg is the first put of
    those rows whose strike is the short strike less the width. *)
Theorem legs_are_first_matches self d (av : Q) (tr : Trade.t) :
  find_bull_put_spread self d av = Return (Some tr) ->
  (exists pre post,
      filter_0dte_options self d = pre ++ Trade.short_put tr :: post /\
      in_delta_band (Trade.short_put tr) /\
      Forall (fun o => ~ in_delta_band o) pre) /\
  (exists pre post,
      filter_0dte_options self d = pre ++ Trade.long_put tr :: post /\
      option_type (Trade.long_put tr) = "put" /\
      strike (Trade.long_put tr)
        == strike (Trade.short_put tr) - width_between_strikes (params self) /\
      Forall (fun o => ~ (option_type o = "put" /\
                          strike o == strike (Trade.short_put tr)
                                      - width_between_strikes (params self))) pre).
Proof.
  unfold find_bull_put_spread.
  destruct (List.filter _ (qqq_data self)) as [|bar rest]; [discriminate|].
  destruct (_ || _); [discriminate|].
  destruct (is_empty _); [discriminate|].
  destruct (List.filter (fun o => Qle_bool _ _ && _) _) as [|sp rest1] eqn:Hsp;
    [discriminate|].
  destruct (List.filter (fun o => Qeq_bool _ _) _) as [|lp rest2] eqn:Hlp;
    [discriminate|].
  intros H.
  assert (Hlegs : Trade.short_put tr = sp /\ Trade.long_put tr = lp).
  { destruct (int _) as [n|e]; [|discriminate]. simpl in H.
    destruct (Z.eqb n 0); [discriminate|]. injection H as <-. auto. }
  destruct Hlegs as (-> & ->). clear H.
  rewrite filter_filter_and in Hsp, Hlp.
  apply filter_head_split in Hsp, Hlp.
  destruct Hsp as (pre & post & Hl & Hx & Hpre).
  destruct Hlp as (pre' & post' & Hl' & Hx' & Hpre').
  split.
  - exists pre, post. split; [exact Hl|]. split; [now apply in_delta_band_bool|].
    eapply List.Forall_impl; [|exact Hpre]. intros o Ho Hband.
    apply in_delta_band_bool in Hband. cbv beta in Ho. congruence.
  - exists pre', post'. split; [exact Hl'|].
    apply andb_true_iff in Hx'. destruct Hx' as (Ht & Hk).
    split; [now apply String.eqb_eq|]. split; [now apply Qeq_bool_iff|].
    eapply List.Forall_impl; [|exact Hpre']. intros o Ho (Ht' & Hk').
    apply String.eqb_eq in Ht'. apply Qeq_bool_iff in Hk'.
    cbv beta in Ho. rewrite Ht', Hk' in Ho. discriminate.
Qed.

Lemma legs_are_first_matches_witness :
  exists tr pre post,
    find_bull_put_spread Scenario.strategy Scenario.entry_day 100000
      = Return (Some tr) /\
    filter_0dte_options Scenario.strategy Scenario.entry_day
      = pre ++ Trade.short_put tr :: post /\
    Forall (fun o => ~ in_delta_band o) pre.
Proof.
  destruct (find_bull_put_spread Scenario.strategy Scenario.entry_day 100000)
    as [[tr|]|e] eqn:Hf; try (vm_compute in Hf; discriminate).
  destruct (legs_are_first_matches _ _ _ _ Hf)
    as ((pre & post & Hl & _ & Hpre) & _).
  exists tr, pre, post. auto.
Defined.

Lemma filter_none {A : Type} (f : A -> bool) (l : list A) :
  (forall x, In x l -> f x = false) -> List.filter f l = [].
Proof.
  intros H. destruct (List.filter f l) as [|x rest] eqn:Hf; [reflexivity|].
  apply filter_head_In in Hf. destruct Hf as (Hin & Hx).
  rewrite (H x Hin) in Hx. discriminate.
Qed.

(** X8: the silent rejections of the selector.  On a date that has a
    price bar, the selector returns no trade, without raising, when the
    bar's RSI is a number below the entry threshold, when its 20-bar
    average is a number below its 50-bar average, when the date's 0DTE
    rows hold no put with delta in [-0.35, -0.25], or when no put of
    those rows has its strike exactly the width below the first put in
    the band. *)
Theorem selector_rejections self d (av : Q) (bar : Bar) (rest : list Bar) :
  List.filter (fun b => Z.eqb (bar_date b) d) (qqq_data self) = bar :: rest ->
  (exists r, rsi bar = Fin r /\ r < entry_rsi_threshold (params self)) \/
  (exists a b, sma_20 bar = Fin a /\ sma_50 bar = Fin b /\ a < b) \/
  (forall o, In o (filter_0dte_options self d) -> ~ in_delta_band o) \/
  (forall o k, In o (filter_0dte_options self d) -> option_type o = "put" ->
               In k (filter_0dte_options self d) -> in_delta_band k ->
               ~ strike o == strike k - width_between_strikes (params self)) ->
  find_bull_put_spread self d av = Return None.
Proof.
  intros Hbar Hcase. unfold find_bull_put_spread. rewrite Hbar.
  destruct Hcase as [(r & Hr & Hlt)|[(a & b & Ha & Hb & Hlt)|[Hband|Hlong]]].
  - rewrite Hr. simpl.
    assert (Hq : Qlt_bool r (entry_rsi_threshold (params self)) = true).
    { unfold Qlt_bool. apply negb_true_iff.
      destruct (Qle_bool _ r) eqn:H; [|reflexivity].
      apply Qle_bool_iff in H. lra. }
    now rewrite Hq.
  - rewrite Ha, Hb. simpl.
    assert (Hq : Qlt_bool a b = true).
    { unfold Qlt_bool. apply negb_true_iff.
      destruct (Qle_bool b a) eqn:H; [|reflexivity].
      apply Qle_bool_iff in H. lra. }
    rewrite Hq. now rewrite orb_true_r.
  - destruct (_ || _); [reflexivity|].
    destruct (is_empty _); [reflexivity|].
    rewrite filter_filter_and, filter_none; [reflexivity|].
    intros o Hin. destruct (_ && _) eqn:Hb; [|reflexivity].
    apply in_delta_band_bool in Hb. now apply Hband in Hb.
  - destruct (_ || _); [reflexivity|].
    destruct (is_empty _); [reflexivity|].
    destruct (List.filter (fun o => Qle_bool _ _ && _) _) as [|sp rest1] eqn:Hsp;
      [reflexivity|].
    rewrite filter_filter_and in Hsp. apply filter_head_In in Hsp.
    destruct Hsp as (Hsin & Hsb). apply in_delta_band_bool in Hsb.
    rewrite filter_filter_and, filter_none; [reflexivity|].
    intros o Hin. destruct (_ && _) eqn:Hb; [|reflexivity].
    apply andb_true_iff in Hb. destruct Hb as (Ht & Hk).
    apply String.eqb_eq in Ht. apply Qeq_bool_iff in Hk.
    exfalso. exact (Hlong o sp Hin Ht Hsin Hsb Hk).
Qed.

Lemma selector_rejections_witness :
  find_bull_put_spread Scenario.quiet_strategy Scenario.entry_day 100000
  = Return None.
Proof.
  eapply (selector_rejections Scenario.quiet_strategy Scenario.entry_day).
  - vm_compute. reflexivity.
  - right. right. left. intros o [].
Defined.

(** X11: the position opened from a candidate.  When no position is
    open and the selector returns a candidate, the entry block opens
    one position with the candidate's legs, count and [max_risk], the
    current date as entry and expiry date, and an initial credit equal
    to the candidate's [max_profit]; it logs one ENTRY event carrying
    that position and the account, which is left as it was. *)
Theorem entry_opens_the_candidate (st : Locals) (tr : Trade.t) :
  positions (self st) = [] ->
  find_bull_put_spread (self st) (current_date st) (account_value st)
    = Return (Some tr) ->
  exists st' p,
    look_for_new_trades st = Return st' /\
    positions (self st') = [p] /\
    Position.short_put p = Trade.short_put tr /\
    Position.long_put p = Trade.long_put tr /\
    Position.num_spreads p = Trade.num_spreads tr /\
    Position.max_risk p = Trade.max_risk tr /\
    Position.initial_credit p = Trade.max_profit tr /\
    Position.entry_date p = current_date st /\
    Position.expiry_date p = current_date st /\
    results st' = results st ++
      [ {| Event.date_ := current_date st;
           Event.account_value := account_value st;
           Event.action := "ENTRY";
           Event.trade_details := p |} ] /\
    account_value st' = account_value st /\
    trade_history (self st') = trade_history (self st).
Proof.
  intros Hpos Hf.
  pose proof (find_bull_put_spread_Some _ _ _ _ Hf) as Hs. cbv zeta in Hs.
  destruct Hs as (_ & _ & _ & _ & _ & _ & _ & _ & _ & _ & _ & Hprofit).
  unfold look_for_new_trades. rewrite Hpos. cbn [is_empty]. rewrite Hf.
  cbn [bind]. eexists _, _. split; [reflexivity|].
  cbn [self positions set_positions app results account_value trade_history
       Position.short_put Position.long_put Position.num_spreads
       Position.max_risk Position.initial_credit Position.entry_date
       Position.expiry_date].
  rewrite Hprofit. repeat split; reflexivity.
Qed.

Lemma entry_opens_the_candidate_witness :
  exists st' p,
    look_for_new_trades
      (initial_locals Scenario.strategy Scenario.entry_day 100000) = Return st' /\
    positions (self st') = [p] /\
    (Position.initial_credit p == 880)%Q.
Proof.
  destruct (find_bull_put_spread Scenario.strategy Scenario.entry_day 100000)
    as [[tr|]|e] eqn:Hf; try (vm_compute in Hf; discriminate).
  destruct (entry_opens_the_candidate
              (initial_locals Scenario.strategy Scenario.entry_day 100000) tr
              eq_refl Hf)
    as (st' & p & Hl & Hp & _ & _ & _ & _ & Hc & _).
  exists st', p. split; [exact Hl|]. split; [exact Hp|].
  rewrite Hc.
  assert (Hb : match find_bull_put_spread Scenario.strategy Scenario.entry_day 100000 with
               | Return (Some t) => Qeq_bool (Trade.max_profit t) 880
               | _ => false
               end = true) by (vm_compute; reflexivity).
  rewrite Hf in Hb. now apply Qeq_bool_iff.
Defined.

(** *** Valuation *)

Lemma filter_put_strike_put (k : Q) (snapshot : list OptionRow) :
  List.filter (fun o => Qeq_bool (strike o) k && String.eqb (option_type o) "put")
    (List.filter (fun o => String.eqb (option_type o) "put") snapshot)
  = List.filter (fun o => Qeq_bool (strike o) k && String.eqb (option_type o) "put")
      snapshot.
Proof.
  rewrite filter_filter_and. apply filter_ext. intros o.
  destruct (String.eqb (option_type o) "put"), (Qeq_bool (strike o) k); reflexivity.
Qed.

(** X12: the valuation looks at puts only and fails exactly on a
    missing leg.  Rows that are not puts never change the value, and
    the value is undefined if and only if the snapshot quotes no put at
    the short strike or no put at the long strike. *)
Theorem valuation_uses_puts_only (position : Position.t)
    (snapshot : list OptionRow) :
  calculate_current_value position snapshot
  = calculate_current_value position
      (List.filter (fun o => String.eqb (option_type o) "put") snapshot) /\
  (calculate_current_value position snapshot = None <->
   ~ quotes_put snapshot (strike (Position.short_put position)) \/
   ~ quotes_put snapshot (strike (Position.long_put position))).
Proof.
  split.
  - unfold calculate_current_value. now rewrite !filter_put_strike_put.
  - split; [|apply calculate_current_value_missing].
    unfold calculate_current_value.
    destruct (List.filter _ snapshot) as [|s ss] eqn:Hs.
    + intros _. left. intros (o & Hin & Hk & Ht).
      assert (Hf : In o (List.filter
                (fun o => Qeq_bool (strike o) (strike (Position.short_put position))
                          && String.eqb (option_type o) "put") snapshot)).
      { apply filter_In. split; [exact Hin|]. apply andb_true_iff.
        split; [now apply Qeq_bool_iff|now apply String.eqb_eq]. }
      rewrite Hs in Hf. destruct Hf.
    + destruct (List.filter
                  (fun o => Qeq_bool (strike o) (strike (Position.long_put position)) && _)
                  snapshot) as [|l ls] eqn:Hl; [|discriminate].
      intros _. right. intros (o & Hin & Hk & Ht).
      assert (Hf : In o (List.filter
                (fun o => Qeq_bool (strike o) (strike (Position.long_put position))
                          && String.eqb (option_type o) "put") snapshot)).
      { apply filter_In. split; [exact Hin|]. apply andb_true_iff.
        split; [now apply Qeq_bool_iff|now apply String.eqb_eq]. }
      rewrite Hl in Hf. destruct Hf.
Qed.

End SelectorMore.


(** * Properties of the indicator columns *)

Section Indicators.

Import BullPutSpreadStrategy.
Open Scope Q_scope.

(** *** Rows and columns *)

Lemma annotate_nth (prices : list PriceRow) :
  forall (a b c : list pyfloat) (i : nat) (bar : Bar),
    nth_error (annotate prices a b c) i = Some bar ->
    exists r, nth_error prices i = Some r /\
      bar_date bar = pr_date r /\ close bar = pr_close r /\
      rsi bar = nth i a NaN /\ sma_20 bar = nth i b NaN /\
      sma_50 bar = nth i c NaN.
Proof.
  induction prices as [|r tl IH]; intros a b c i bar H.
  - destruct i; discriminate.
  - destruct i as [|i]; simpl in H.
    + injection H as <-. exists r. simpl.
      repeat split; auto; destruct a, b, c; reflexivity.
    + apply IH in H. destruct H as (r' & Hr & Hd & Hc & Ha & Hb & Hcc).
      exists r'. simpl. repeat split; auto.
      * rewrite Ha. destruct a; [destruct i|]; reflexivity.
      * rewrite Hb. destruct b; [destruct i|]; reflexivity.
      * rewrite Hcc. destruct c; [destruct i|]; reflexivity.
Qed.

Lemma annotate_rows (prices : list PriceRow) :
  forall a b c : list pyfloat,
    map (fun bar => (bar_date bar, close bar)) (annotate prices a b c)
    = map (fun r => (pr_date r, pr_close r)) prices.
Proof.
  induction prices as [|r tl IH]; intros a b c; simpl; [reflexivity|].
  now rewrite IH.
Qed.

Lemma add_indicators_rows (prices : list PriceRow) :
  map (fun bar => (bar_date bar, close bar)) (add_indicators prices)
  = map (fun r => (pr_date r, pr_close r)) prices.
Proof. unfold add_indicators. apply annotate_rows. Qed.

(** X13: the indicators only add columns.  The annotated frame has the
    rows of the price frame, with their dates and closes, in the same
    order; so a date has a bar after annotation exactly when it had a
    price row. *)
Theorem add_indicators_keeps_rows (prices : list PriceRow) :
  map (fun bar => (bar_date bar, close bar)) (add_indicators prices)
  = map (fun r => (pr_date r, pr_close r)) prices /\
  length (add_indicators prices) = length prices /\
  forall (options : list OptionRow) (p : Params) (d : date),
    has_bar (__init__ prices options p) d <->
    exists r, In r prices /\ pr_date r = d.
Proof.
  pose proof (add_indicators_rows prices) as Hrows.
  split; [exact Hrows|]. split.
  - rewrite <- (length_map (fun bar => (bar_date bar, close bar))), Hrows.
    apply length_map.
  - intros options p d. unfold has_bar, __init__. cbn [qqq_data]. split.
    + intros (bar & Hin & Hd).
      apply (in_map (fun bar => (bar_date bar, close bar))) in Hin.
      rewrite Hrows in Hin. apply in_map_iff in Hin.
      destruct Hin as (r & Heq & Hin). exists r. split; [exact Hin|].
      injection Heq as H1 _. congruence.
    + intros (r & Hin & Hd).
      apply (in_map (fun r => (pr_date r, pr_close r))) in Hin.
      rewrite <- Hrows in Hin. apply in_map_iff in Hin.
      destruct Hin as (bar & Heq & Hin). exists bar. split; [exact Hin|].
      injection Heq as H1 _. congruence.
Qed.

(** *** Entries of a rolling mean *)

Lemma nth_map_seq (g : nat -> pyfloat) (n i : nat) :
  nth i (map g (seq 0 n)) NaN = if (i <? n)%nat then g i else NaN.
Proof.
  destruct (i <? n)%nat eqn:Hi.
  - apply Nat.ltb_lt in Hi.
    rewrite (nth_indep _ NaN (g 0%nat)) by (rewrite length_map, length_seq; lia).
    rewrite map_nth, seq_nth by lia. reflexivity.
  - apply Nat.ltb_ge in Hi. apply nth_overflow.
    rewrite length_map, length_seq. lia.
Qed.

Lemma rolling_mean_nth (window : nat) (xs : list pyfloat) (i : nat) :
  nth i (Series.rolling_mean window xs) NaN
  = if (i <? length xs)%nat
    then match Series.window_at window i xs with
         | None => NaN
         | Some w => if forallb is_finite w then Series.mean w else NaN
         end
    else NaN.
Proof. unfold Series.rolling_mean. apply nth_map_seq. Qed.

Lemma rolling_mean_length (window : nat) (xs : list pyfloat) :
  length (Series.rolling_mean window xs) = length xs.
Proof. unfold Series.rolling_mean. now rewrite length_map, length_seq. Qed.

Lemma rolling_mean_warm_up (window : nat) (xs : list pyfloat) (i : nat) :
  (i + 1 < window)%nat -> nth i (Series.rolling_mean window xs) NaN = NaN.
Proof.
  intros Hi. rewrite rolling_mean_nth. unfold Series.window_at.
  assert (Hw : (window <=? i + 1)%nat = false) by (apply Nat.leb_gt; lia).
  rewrite Hw. now destruct (i <? length xs)%nat.
Qed.

Lemma nth_map2_div (a b : list pyfloat) (i : nat) :
  length a = length b ->
  nth i (Series.map2 div a b) NaN = div (nth i a NaN) (nth i b NaN).
Proof.
  intros Hlen. unfold Series.map2.
  change NaN with ((fun p : pyfloat * pyfloat => div (fst p) (snd p)) (NaN, NaN)) at 1.
  rewrite map_nth, combine_nth by exact Hlen. reflexivity.
Qed.

(** The RSI of a bar in terms of the two rolling averages. *)
Lemma rsi_nth (prices : list PriceRow) (i : nat) (bar : Bar) :
  nth_error (add_indicators prices) i = Some bar ->
  let closes := map (fun r => Fin (pr_close r)) prices in
  let delta := Series.diff closes in
  let gain := Series.where_ (fun d => gtb d (Fin 0)) (Fin 0) delta in
  let loss := map neg (Series.where_ (fun d => ltb d (Fin 0)) (Fin 0) delta) in
  rsi bar = sub (Fin 100)
              (div (Fin 100)
                 (add (Fin 1)
                    (div (nth i (Series.rolling_mean 14 gain) NaN)
                         (nth i (Series.rolling_mean 14 loss) NaN)))) /\
  sma_20 bar = nth i (Series.rolling_mean 20 closes) NaN /\
  sma_50 bar = nth i (Series.rolling_mean 50 closes) NaN /\
  (i < length prices)%nat.
Proof.
  intros H. cbv zeta. unfold add_indicators in H.
  apply annotate_nth in H. destruct H as (r & Hr & _ & _ & Hrsi & H20 & H50).
  split; [|split; [exact H20|split; [exact H50|]]].
  - rewrite Hrsi.
    change NaN with ((fun r => sub (Fin 100) (div (Fin 100) (add (Fin 1) r))) NaN) at 1.
    rewrite map_nth, nth_map2_div; [reflexivity|].
    rewrite !rolling_mean_length. unfold Series.where_. now rewrite !length_map.
  - apply nth_error_Some. congruence.
Qed.

(** X14: the warm-up of the indicators.  Whatever the prices, the RSI
    of the first 13 bars is undefined, and so are the 20-bar average of
    the first 19 bars and the 50-bar average of the first 49 bars. *)
Theorem indicators_warm_up (prices : list PriceRow) (i : nat) (bar : Bar) :
  nth_error (add_indicators prices) i = Some bar ->
  ((i < 13)%nat -> rsi bar = NaN) /\
  ((i < 19)%nat -> sma_20 bar = NaN) /\
  ((i < 49)%nat -> sma_50 bar = NaN).
Proof.
  intros H. apply rsi_nth in H. cbv zeta in H.
  destruct H as (Hrsi & H20 & H50 & _).
  split; [|split]; intros Hi.
  - rewrite Hrsi, !rolling_mean_warm_up by lia. reflexivity.
  - rewrite H20. apply rolling_mean_warm_up. lia.
  - rewrite H50. apply rolling_mean_warm_up. lia.
Qed.

Lemma indicators_warm_up_witness :
  exists bar,
    nth_error (add_indicators (Scenario.zigzag_prices 60)) 12 = Some bar /\
    rsi bar = NaN /\ sma_20 bar = NaN /\ sma_50 bar = NaN.
Proof.
  destruct (nth_error (add_indicators (Scenario.zigzag_prices 60)) 12)
    as [bar|] eqn:Hb; [|vm_compute in Hb; discriminate].
  exists bar. split; [reflexivity|].
  destruct (indicators_warm_up _ _ _ Hb) as (H1 & H2 & H3).
  repeat split; [apply H1|apply H2|apply H3]; lia.
Defined.

(** *** Gains and losses *)

Lemma diff_from_finite (xs : list pyfloat) :
  forall prev, is_finite prev = true ->
    Forall (fun x => is_finite x = true) xs ->
    Forall (fun x => is_finite x = true) (Series.diff_from prev xs).
Proof.
  induction xs as [|x tl IH]; intros prev Hp Hall; simpl; [constructor|].
  inversion Hall as [|? ? Hx Htl]; subst. constructor.
  - destruct x, prev; try discriminate. reflexivity.
  - now apply IH.
Qed.

Lemma diff_nan_or_finite (xs : list pyfloat) :
  Forall (fun x => is_finite x = true) xs ->
  Forall nan_or_finite (Series.diff xs).
Proof.
  intros Hall. destruct xs as [|x tl]; simpl; [constructor|].
  inversion Hall as [|? ? Hx Htl]; subst. constructor; [exact I|].
  eapply List.Forall_impl; [|apply (diff_from_finite tl x Hx Htl)].
  intros y Hy. now destruct y.
Qed.

Lemma Qlt_bool_true (a b : Q) : Qlt_bool a b = true <-> a < b.
Proof.
  unfold Qlt_bool. rewrite negb_true_iff. split.
  - intros H. apply Qnot_le_lt. intros Hle. apply Qle_bool_iff in Hle. congruence.
  - intros H. destruct (Qle_bool b a) eqn:Hb; [|reflexivity].
    apply Qle_bool_iff in Hb. lra.
Qed.

Lemma Qlt_bool_false (a b : Q) : Qlt_bool a b = false <-> b <= a.
Proof.
  unfold Qlt_bool. rewrite negb_false_iff. apply Qle_bool_iff.
Qed.

Lemma gain_nonneg (delta : list pyfloat) :
  Forall nan_or_finite delta ->
  Forall finite_nonneg (Series.where_ (fun d => gtb d (Fin 0)) (Fin 0) delta).
Proof.
  intros Hall. unfold Series.where_. apply List.Forall_map.
  eapply List.Forall_impl; [|exact Hall]. intros [| |q] Hd; simpl; try lra.
  - destruct Hd.
  - destruct (Qlt_bool 0 q) eqn:Hq; simpl; [|lra].
    apply Qlt_bool_true in Hq. lra.
Qed.

Lemma loss_nonneg (delta : list pyfloat) :
  Forall nan_or_finite delta ->
  Forall finite_nonneg
    (map neg (Series.where_ (fun d => ltb d (Fin 0)) (Fin 0) delta)).
Proof.
  intros Hall. unfold Series.where_. rewrite map_map. apply List.Forall_map.
  eapply List.Forall_impl; [|exact Hall]. intros [| |q] Hd; simpl; try lra.
  - destruct Hd.
  - destruct (Qlt_bool q 0) eqn:Hq; simpl; [|lra].
    apply Qlt_bool_true in Hq. lra.
Qed.

(** *** Sums and means of numbers that are not negative *)

Lemma fold_add_nonneg (w : list pyfloat) :
  Forall finite_nonneg w ->
  forall a, exists s,
    fold_left add w (Fin a) = Fin s /\ a <= s /\
    (forall q, In (Fin q) w -> a + q <= s).
Proof.
  induction 1 as [|x tl Hx Htl IH]; intros a; simpl.
  - exists a. split; [reflexivity|]. split; [lra|]. intros q [].
  - destruct x as [| |q]; [destruct Hx|destruct Hx|]. simpl in Hx.
    destruct (IH (a + q)) as (s & Hs & Hle & Hin).
    exists s. split; [exact Hs|]. split; [lra|].
    intros q' [Heq|Hq'].
    + injection Heq as <-. exact Hle.
    + specialize (Hin q' Hq'). lra.
Qed.

Lemma mean_nonneg (w : list pyfloat) :
  Forall finite_nonneg w -> w <> [] ->
  exists m s, Series.mean w = Fin m /\ Series.sum w = Fin s /\
              m == s / inject_Z (Z.of_nat (length w)) /\ 0 <= m.
Proof.
  intros Hall Hne. unfold Series.mean, Series.sum.
  destruct (fold_add_nonneg w Hall 0) as (s & Hs & Hle & _).
  rewrite Hs. unfold of_Z.
  assert (Hlen : 0 < inject_Z (Z.of_nat (length w))).
  { rewrite <- (Zlt_Qlt 0). destruct w; [congruence|simpl; lia]. }
  rewrite div_Fin by (intros H; rewrite H in Hlen; lra).
  eexists _, _. split; [reflexivity|]. split; [reflexivity|].
  split; [reflexivity|]. apply Qle_shift_div_l; [exact Hlen|lra].
Qed.

Lemma finite_nonneg_is_finite (w : list pyfloat) :
  Forall finite_nonneg w -> forallb is_finite w = true.
Proof.
  intros H. apply forallb_forall. rewrite List.Forall_forall in H.
  intros x Hin. specialize (H x Hin). now destruct x.
Qed.

Lemma rolling_mean_nonneg (window : nat) (xs : list pyfloat) (i : nat) :
  Forall finite_nonneg xs ->
  nan_or_nonneg (nth i (Series.rolling_mean window xs) NaN).
Proof.
  intros Hall. rewrite rolling_mean_nth.
  destruct (i <? length xs)%nat; [|exact I].
  unfold Series.window_at. destruct (window <=? i + 1)%nat; [|exact I].
  set (w := firstn window (skipn (i + 1 - window) xs)).
  assert (Hw : Forall finite_nonneg w) by (apply Forall_take, Forall_drop, Hall).
  rewrite (finite_nonneg_is_finite w Hw).
  destruct w as [|x tl] eqn:Hw'; [exact I|].
  destruct (mean_nonneg (x :: tl) Hw) as (m & s & Hm & _ & _ & H0); [discriminate|].
  rewrite Hm. exact H0.
Qed.

(** The RSI formula on two averages that are not negative. *)
Lemma rsi_formula_percent (a b : pyfloat) :
  nan_or_nonneg a -> nan_or_nonneg b ->
  nan_or_percent (sub (Fin 100) (div (Fin 100) (add (Fin 1) (div a b)))).
Proof.
  intros Ha Hb.
  destruct a as [| |x]; [exact I|destruct Ha|].
  destruct b as [| |y]; [exact I|destruct Hb|].
  simpl in Ha, Hb.
  destruct (Qeq_dec y 0) as [Hy|Hy].
  - assert (Hyb : Qeq_bool y 0 = true) by now apply Qeq_bool_iff.
    unfold div at 2. rewrite Hyb.
    destruct (Qeq_bool x 0) eqn:Hx; [exact I|].
    assert (Hlt : Qlt_bool x 0 = false) by (apply Qlt_bool_false; exact Ha).
    rewrite Hlt. simpl. lra.
  - assert (Hypos : 0 < y) by lra.
    assert (Hr : 0 <= x / y) by (apply Qle_shift_div_l; [exact Hypos|lra]).
    rewrite (div_Fin x y Hy). cbn [add].
    rewrite div_Fin by lra. cbn [sub neg add].
    assert (H1 : 0 <= 100 / (1 + x / y)) by (apply Qle_shift_div_l; lra).
    assert (H2 : 100 / (1 + x / y) <= 100) by (apply Qle_shift_div_r; lra).
    simpl. lra.
Qed.

Lemma add_indicators_gain_loss (prices : list PriceRow) :
  let closes := map (fun r => Fin (pr_close r)) prices in
  let delta := Series.diff closes in
  Forall finite_nonneg (Series.where_ (fun d => gtb d (Fin 0)) (Fin 0) delta) /\
  Forall finite_nonneg
    (map neg (Series.where_ (fun d => ltb d (Fin 0)) (Fin 0) delta)).
Proof.
  cbv zeta.
  assert (Hd : Forall nan_or_finite
                 (Series.diff (map (fun r => Fin (pr_close r)) prices))).
  { apply diff_nan_or_finite, List.Forall_map, List.Forall_forall. reflexivity. }
  split; [now apply gain_nonneg|now apply loss_nonneg].
Qed.

(** X15: the range of the RSI.  Whatever the prices, the RSI of every
    bar is either undefined or a number between 0 and 100; it is never
    an infinity. *)
Theorem rsi_is_nan_or_percent (prices : list PriceRow) :
  Forall (fun bar => nan_or_percent (rsi bar)) (add_indicators prices).
Proof.
  apply List.Forall_forall. intros bar Hin.
  apply In_nth_error in Hin. destruct Hin as (i & Hi).
  apply rsi_nth in Hi. cbv zeta in Hi. destruct Hi as (Hrsi & _).
  rewrite Hrsi.
  destruct (add_indicators_gain_loss prices) as (Hg & Hl).
  apply rsi_formula_percent; now apply rolling_mean_nonneg.
Qed.

(** *** A rising series *)

Lemma diff_from_length (xs : list pyfloat) :
  forall p, length (Series.diff_from p xs) = length xs.
Proof. induction xs as [|x tl IH]; intros p; simpl; [reflexivity|]. now rewrite IH. Qed.

Lemma strictly_rising_tail (r : PriceRow) (rest : list PriceRow) :
  strictly_rising (r :: rest) -> strictly_rising rest.
Proof. intros H i a b Ha Hb. exact (H (S i) a b Ha Hb). Qed.

Lemma diff_from_rising (rest : list PriceRow) :
  forall r0, strictly_rising (r0 :: rest) ->
    Forall finite_pos
      (Series.diff_from (Fin (pr_close r0)) (map (fun r => Fin (pr_close r)) rest)).
Proof.
  induction rest as [|r1 tl IH]; intros r0 H; simpl; [constructor|].
  constructor.
  - simpl. pose proof (H 0%nat r0 r1 eq_refl eq_refl). lra.
  - apply IH. eapply strictly_rising_tail, H.
Qed.

Lemma rising_gain_loss (r0 : PriceRow) (rest : list PriceRow) :
  strictly_rising (r0 :: rest) ->
  let delta := Series.diff (map (fun r => Fin (pr_close r)) (r0 :: rest)) in
  (exists G, Series.where_ (fun d => gtb d (Fin 0)) (Fin 0) delta = Fin 0 :: G /\
             Forall finite_pos G) /\
  Forall finite_zero
    (map neg (Series.where_ (fun d => ltb d (Fin 0)) (Fin 0) delta)).
Proof.
  intros H. pose proof (diff_from_rising rest r0 H) as Hd. cbv zeta. simpl.
  set (D := Series.diff_from (Fin (pr_close r0))
              (map (fun r => Fin (pr_close r)) rest)) in *.
  split.
  - eexists. split; [reflexivity|]. apply List.Forall_map.
    eapply List.Forall_impl; [|exact Hd].
    intros [| |q] Hq; [destruct Hq|destruct Hq|].
    simpl in Hq. simpl. pose proof (proj2 (Qlt_bool_true 0 q) Hq) as Hb.
    rewrite Hb. exact Hq.
  - constructor; [simpl; lra|]. unfold Series.where_. rewrite map_map.
    apply List.Forall_map.
    eapply List.Forall_impl; [|exact Hd].
    intros [| |q] Hq; [destruct Hq|destruct Hq|].
    simpl in Hq. simpl. assert (Hf : Qlt_bool q 0 = false) by (apply Qlt_bool_false; lra).
    rewrite Hf. simpl. lra.
Qed.

Lemma fold_add_zero (w : list pyfloat) :
  Forall finite_zero w ->
  forall a, exists s, fold_left add w (Fin a) = Fin s /\ s == a.
Proof.
  induction 1 as [|x tl Hx Htl IH]; intros a; simpl.
  - exists a. split; reflexivity.
  - destruct x as [| |q]; [destruct Hx|destruct Hx|]. simpl in Hx.
    destruct (IH (a + q)) as (s & Hs & Heq). exists s. split; [exact Hs|].
    rewrite Heq, Hx. ring.
Qed.

Lemma full_window (xs : list pyfloat) (window i : nat) :
  (window <= i + 1)%nat -> (i < length xs)%nat -> (0 < window)%nat ->
  Series.window_at window i xs
    = Some (firstn window (skipn (i + 1 - window) xs)) /\
  length (firstn window (skipn (i + 1 - window) xs)) = window /\
  nth_error (firstn window (skipn (i + 1 - window) xs)) (window - 1)
    = nth_error xs i.
Proof.
  intros Hw Hi H0. unfold Series.window_at.
  assert (Hb : (window <=? i + 1)%nat = true) by (apply Nat.leb_le; lia).
  rewrite Hb. split; [reflexivity|]. split.
  - rewrite length_firstn, length_skipn. lia.
  - rewrite nth_error_firstn.
    assert (Hlt : (window - 1 <? window)%nat = true) by (apply Nat.ltb_lt; lia).
    rewrite Hlt, nth_error_skipn. f_equal. lia.
Qed.

(** X16: on a rising series the RSI is 100.  When every close is above
    the one before, the RSI of every bar from the fourteenth on is the
    number 100, and not NaN. *)
Theorem rising_series_rsi_100 (prices : list PriceRow) (i : nat) (bar : Bar) :
  strictly_rising prices ->
  (13 <= i)%nat ->
  nth_error (add_indicators prices) i = Some bar ->
  exists q, rsi bar = Fin q /\ q == 100.
Proof.
  intros Hrise Hi Hbar.
  apply rsi_nth in Hbar. cbv zeta in Hbar. destruct Hbar as (Hrsi & _ & _ & Hlen).
  destruct prices as [|r0 rest]; [simpl in Hlen; lia|].
  destruct (rising_gain_loss r0 rest Hrise) as ((G & Hg & HG) & Hl).
  cbv zeta in Hg, Hl.
  destruct (add_indicators_gain_loss (r0 :: rest)) as (Hgn & Hln).
  cbv zeta in Hgn, Hln.
  set (gain := Series.where_ (fun d => gtb d (Fin 0)) (Fin 0)
                 (Series.diff (map (fun r => Fin (pr_close r)) (r0 :: rest)))) in *.
  set (loss := map neg (Series.where_ (fun d => ltb d (Fin 0)) (Fin 0)
                 (Series.diff (map (fun r => Fin (pr_close r)) (r0 :: rest))))) in *.
  assert (Hglen : length gain = length (r0 :: rest)).
  { unfold gain, Series.where_. rewrite length_map. simpl.
    now rewrite diff_from_length, length_map. }
  assert (Hllen : length loss = length (r0 :: rest)).
  { unfold loss, Series.where_. rewrite !length_map. simpl.
    now rewrite diff_from_length, length_map. }
  (* the average gain *)
  destruct (full_window gain 14 i) as (Hwg & Hwlen & Hwlast); [lia|lia|lia|].
  destruct (full_window loss 14 i) as (Hwl & Hwllen & _); [lia|lia|lia|].
  set (wg := firstn 14 (skipn (i + 1 - 14) gain)) in *.
  set (wl := firstn 14 (skipn (i + 1 - 14) loss)) in *.
  assert (Hwgn : Forall finite_nonneg wg) by (apply Forall_take, Forall_drop, Hgn).
  assert (Hwlz : Forall finite_zero wl) by (apply Forall_take, Forall_drop, Hl).
  assert (Hwln : Forall finite_nonneg wl) by (apply Forall_take, Forall_drop, Hln).
  assert (Hpos : exists q, In (Fin q) wg /\ 0 < q).
  { assert (Hnth : exists x, nth_error gain i = Some x /\ finite_pos x).
    { rewrite Hg. destruct i as [|k]; [lia|]. simpl.
      destruct (nth_error G k) as [x|] eqn:Hx.
      - exists x. split; [reflexivity|].
        rewrite List.Forall_forall in HG. eapply HG, nth_error_In, Hx.
      - apply nth_error_None in Hx.
        assert (length gain = S (length G)) by now rewrite Hg.
        lia. }
    destruct Hnth as (x & Hx & Hxp). destruct x as [| |q]; [destruct Hxp|destruct Hxp|].
    exists q. split; [|exact Hxp]. rewrite <- Hwlast in Hx.
    eapply nth_error_In, Hx. }
  destruct Hpos as (q & Hqin & Hq).
  destruct (fold_add_nonneg wg Hwgn 0) as (sg & Hsg & _ & Hsum).
  specialize (Hsum q Hqin).
  destruct (fold_add_zero wl Hwlz 0) as (sl & Hsl & Hslz).
  assert (H14 : ~ inject_Z (Z.of_nat 14) == 0) by discriminate.
  assert (Hag : nth i (Series.rolling_mean 14 gain) NaN = Fin (sg / inject_Z (Z.of_nat 14))).
  { rewrite rolling_mean_nth.
    assert (Hb : (i <? length gain)%nat = true) by (apply Nat.ltb_lt; lia).
    rewrite Hb, Hwg. fold wg. rewrite (finite_nonneg_is_finite wg Hwgn).
    unfold Series.mean, Series.sum. rewrite Hsg, Hwlen. unfold of_Z.
    now rewrite div_Fin. }
  assert (Hal : nth i (Series.rolling_mean 14 loss) NaN = Fin (sl / inject_Z (Z.of_nat 14))).
  { rewrite rolling_mean_nth.
    assert (Hb : (i <? length loss)%nat = true) by (apply Nat.ltb_lt; lia).
    rewrite Hb, Hwl. fold wl. rewrite (finite_nonneg_is_finite wl Hwln).
    unfold Series.mean, Series.sum. rewrite Hsl, Hwllen. unfold of_Z.
    now rewrite div_Fin. }
  rewrite Hrsi, Hag, Hal.
  assert (Hzl : Qeq_bool (sl / inject_Z (Z.of_nat 14)) 0 = true).
  { apply Qeq_bool_iff. rewrite Hslz. reflexivity. }
  assert (Hgpos : 0 < sg / inject_Z (Z.of_nat 14)).
  { apply Qlt_shift_div_l; [reflexivity|]. lra. }
  assert (Hzg : Qeq_bool (sg / inject_Z (Z.of_nat 14)) 0 = false).
  { destruct (Qeq_bool (sg / inject_Z (Z.of_nat 14)) 0) eqn:H; [|reflexivity].
    apply Qeq_bool_iff in H. rewrite H in Hgpos. lra. }
  assert (Hng : Qlt_bool (sg / inject_Z (Z.of_nat 14)) 0 = false)
    by (apply Qlt_bool_false; lra).
  unfold div at 2. rewrite Hzl, Hzg, Hng.
  exists (100 + - 0). split; [reflexivity|]. reflexivity.
Qed.

Lemma rising_prices_rising (n : nat) : strictly_rising (Scenario.rising_prices n).
Proof.
  intros i r r' H1 H2. unfold Scenario.rising_prices in H1, H2.
  rewrite nth_error_map in H1, H2.
  destruct (nth_error (seq 0 n) i) as [a|] eqn:E1; [|discriminate].
  destruct (nth_error (seq 0 n) (S i)) as [b|] eqn:E2; [|discriminate].
  simpl in H1, H2. injection H1 as <-. injection H2 as <-.
  assert (Hi : (S i < n)%nat).
  { assert (Hne : nth_error (seq 0 n) (S i) <> None) by congruence.
    apply nth_error_Some in Hne. now rewrite length_seq in Hne. }
  apply (nth_error_nth _ _ 0%nat) in E1. apply (nth_error_nth _ _ 0%nat) in E2.
  rewrite seq_nth in E1, E2 by lia. subst a b. cbn [pr_close].
  apply Qplus_lt_r. rewrite <- Zlt_Qlt. lia.
Qed.

Lemma rising_series_rsi_100_witness :
  exists bar q,
    nth_error (add_indicators (Scenario.rising_prices 20)) 15 = Some bar /\
    rsi bar = Fin q /\ q == 100.
Proof.
  destruct (nth_error (add_indicators (Scenario.rising_prices 20)) 15)
    as [bar|] eqn:Hb; [|vm_compute in Hb; discriminate].
  destruct (rising_series_rsi_100 _ 15%nat bar (rising_prices_rising 20)
              ltac:(lia) Hb) as (q & Hq & H100).
  exists bar, q. auto.
Defined.

End Indicators.


(** * Properties of the multi-month fetch *)

Section FetchMonthsProperties.

Import backtest_alpha_vantage.

Variable requests_get : string -> list (string * string) -> outcome Response.
Variable DataFrame : Type.
Variable frame_of_time_series : string -> json -> outcome DataFrame.
Variable str : json -> string.
Variable text : Response -> string.
Variable read_csv : string -> outcome DataFrame.
Variable combine : list DataFrame -> outcome DataFrame.

Local Abbreviation first_fetch :=
  (get_intraday_data requests_get DataFrame frame_of_time_series str).

Lemma range_empty (lo hi : Z) : (hi <= lo)%Z -> range lo hi = [].
Proof.
  intros H. unfold range.
  replace (Z.to_nat (hi - lo)) with 0%nat by lia. reflexivity.
Qed.

Lemma In_range (lo hi x : Z) : In x (range lo hi) -> (lo <= x < hi)%Z.
Proof.
  unfold range. intros H. apply in_map_iff in H.
  destruct H as (i & <- & Hi). apply in_seq in Hi. lia.
Qed.

(** X17: fewer than twelve months fetch no slice.  When [months] is
    below 12, or the interval is not ["1min"], the multi-month fetch
    makes the one full-size request and returns what it returns (the
    frame as it is, or the exception it raised): no slice is requested
    and nothing is combined. *)
Theorem fetch_multiple_months_under_a_year (symbol interval : string)
    (api_key : option string) (months : Z) :
  (months < 12)%Z \/ interval <> "1min" ->
  fetch_multiple_months requests_get DataFrame frame_of_time_series str
    text read_csv combine symbol interval api_key months
  = get_intraday_data requests_get DataFrame frame_of_time_series str
      symbol interval api_key "full".
Proof.
  intros H. unfold fetch_multiple_months.
  destruct (first_fetch symbol interval api_key "full") as [first|e];
    [|reflexivity].
  cbn [bind].
  assert (Hskip :
    (if (1 <? months)%Z && String.eqb interval "1min"
     then year_loop requests_get DataFrame text read_csv symbol interval
            api_key months (range 1 (months / 12 + 1)) [first]
     else Return [first]) = Return [first]).
  { destruct H as [Hm|Hi].
    - rewrite range_empty.
      + now destruct ((1 <? months)%Z && String.eqb interval "1min").
      + assert (months / 12 < 1)%Z by (apply Z.div_lt_upper_bound; lia). lia.
    - apply String.eqb_neq in Hi. rewrite Hi, andb_false_r. reflexivity. }
  rewrite Hskip. reflexivity.
Qed.

(** *** The slice loops *)

Lemma month_loop_no_frame (symbol interval : string) (api_key : option string)
    (months : Z) (reply : Z -> Z -> Response) (e : exn) (year : Z) :
  (forall year month,
     requests_get "https://www.alphavantage.co/query"
       (slice_query symbol interval (slice_param year month) api_key)
     = Return (reply year month)) ->
  (forall body, read_csv body = Raise e) ->
  (1 <= year <= months / 12)%Z ->
  forall (month_range : list Z) (all_data : list DataFrame),
    (forall m, In m month_range -> (1 <= m <= 12)%Z) ->
    month_loop requests_get DataFrame text read_csv symbol interval api_key
      months year month_range all_data
    = if forallb (fun m => negb (status_code (reply year m) =? 200)%Z) month_range
      then Return all_data else Raise e.
Proof.
  intros Hreply Hcsv Hy. induction month_range as [|m rest IH]; intros all_data Hm.
  - reflexivity.
  - cbn [month_loop forallb].
    assert (Hguard : (months <? (year - 1) * 12 + m)%Z = false).
    { apply Z.ltb_ge. pose proof (Hm m (or_introl eq_refl)).
      pose proof (Z.mul_div_le months 12 ltac:(lia)). lia. }
    rewrite Hguard, Hreply. cbn [bind].
    destruct (status_code (reply year m) =? 200)%Z.
    + rewrite Hcsv. reflexivity.
    + cbn [negb andb]. apply IH. intros x Hx. apply Hm. now right.
Qed.

Lemma year_loop_no_frame (symbol interval : string) (api_key : option string)
    (months : Z) (reply : Z -> Z -> Response) (e : exn) :
  (forall year month,
     requests_get "https://www.alphavantage.co/query"
       (slice_query symbol interval (slice_param year month) api_key)
     = Return (reply year month)) ->
  (forall body, read_csv body = Raise e) ->
  forall (year_range : list Z) (all_data : list DataFrame),
    (forall y, In y year_range -> (1 <= y <= months / 12)%Z) ->
    year_loop requests_get DataFrame text read_csv symbol interval api_key
      months year_range all_data
    = if forallb (fun y =>
           forallb (fun m => negb (status_code (reply y m) =? 200)%Z) (range 1 13))
         year_range
      then Return all_data else Raise e.
Proof.
  intros Hreply Hcsv. induction year_range as [|y rest IH]; intros all_data Hy.
  - reflexivity.
  - cbn [year_loop forallb].
    rewrite (month_loop_no_frame symbol interval api_key months reply e y
               Hreply Hcsv (Hy y (or_introl eq_refl))).
    + destruct (forallb _ (range 1 13)); cbn [bind andb]; [|reflexivity].
      apply IH. intros x Hx. apply Hy. now right.
    + intros m Hm. apply In_range in Hm. lia.
Qed.

(** X18: the slices give no frame.  For the 1-minute interval and more
    than one month, when the first request gives a frame, every slice
    request is answered, and the CSV read of a slice raises (as it does
    where pandas has no attribute [StringIO]): if none of the answers
    for months 1 to 12 of the years 1 to months // 12 has status 200,
    they are all skipped without an exception and the first frame is
    returned as it is; if one of them has, the fetch raises the
    exception of the CSV read.  Nothing is ever combined. *)
Theorem fetch_multiple_months_slices (symbol interval : string)
    (api_key : option string) (months : Z) (first : DataFrame)
    (reply : Z -> Z -> Response) (e : exn) :
  (1 < months)%Z ->
  interval = "1min" ->
  get_intraday_data requests_get DataFrame frame_of_time_series str
    symbol interval api_key "full" = Return first ->
  (forall year month,
     requests_get "https://www.alphavantage.co/query"
       (slice_query symbol interval (slice_param year month) api_key)
     = Return (reply year month)) ->
  (forall body, read_csv body = Raise e) ->
  fetch_multiple_months requests_get DataFrame frame_of_time_series str
    text read_csv combine symbol interval api_key months
  = if forallb (fun y =>
         forallb (fun m => negb (status_code (reply y m) =? 200)%Z) (range 1 13))
       (range 1 (months / 12 + 1))
    then Return first else Raise e.
Proof.
  intros Hm Hi Hfirst Hreply Hcsv.
  unfold fetch_multiple_months. rewrite Hfirst. cbn [bind].
  assert (Hc : (1 <? months)%Z && String.eqb interval "1min" = true).
  { apply andb_true_iff. split; [now apply Z.ltb_lt|now apply String.eqb_eq]. }
  rewrite Hc.
  rewrite (year_loop_no_frame symbol interval api_key months reply e Hreply Hcsv).
  - now destruct (forallb _ (range 1 (months / 12 + 1))).
  - intros y Hy. apply In_range in Hy. lia.
Qed.

End FetchMonthsProperties.

Lemma fetch_multiple_months_under_a_year_witness :
  ((6 < 12)%Z \/ "1min" <> "1min") /\
  backtest_alpha_vantage.fetch_multiple_months (Scenario.canned Scenario.ok_reply) Scenario.frame
    Scenario.rows_of Scenario.show Scenario.body_text Scenario.parse_csv
    Scenario.concat_frames "QQQ" "1min" (Some "demo") 6
  = backtest_alpha_vantage.get_intraday_data (Scenario.canned Scenario.ok_reply) Scenario.frame
      Scenario.rows_of Scenario.show "QQQ" "1min" (Some "demo") "full".
Proof.
  split; [left; lia|].
  apply fetch_multiple_months_under_a_year. left. lia.
Defined.

Lemma fetch_multiple_months_slices_witness :
  backtest_alpha_vantage.fetch_multiple_months (Scenario.canned Scenario.ok_reply)
    Scenario.frame Scenario.rows_of Scenario.show Scenario.body_text
    Scenario.no_string_io Scenario.concat_frames "QQQ" "1min" (Some "demo") 18
  = Raise AttributeError.
Proof.
  rewrite (fetch_multiple_months_slices
             (Scenario.canned Scenario.ok_reply) Scenario.frame
             Scenario.rows_of Scenario.show Scenario.body_text
             Scenario.no_string_io Scenario.concat_frames
             "QQQ" "1min" (Some "demo") 18
             [("2023-01-02 09:30:00", "QQQ")]
             (fun _ _ => Scenario.ok_reply) AttributeError).
  - reflexivity.
  - lia.
  - reflexivity.
  - vm_compute. reflexivity.
  - intros year month. reflexivity.
  - intros body. reflexivity.
Defined.

(** On the free tier the slices are refused and the first frame comes
    back alone. *)
Example free_tier_returns_first_frame :
  backtest_alpha_vantage.fetch_multiple_months Scenario.free_tier
    Scenario.frame Scenario.rows_of Scenario.show Scenario.body_text
    Scenario.no_string_io Scenario.concat_frames "QQQ" "1min" (Some "demo") 18
  = Return [("2023-01-02 09:30:00", "QQQ")].
Proof. vm_compute. reflexivity. Qed.
